(** * MoltyDEX x402 example: the 402 payment handler of [example.py]

    A shallow embedding of [X402PaymentHandler] and the properties of its
    control flow.  Python values that reach the handler come out of
    [response.json()], so they are modelled as JSON values; dictionaries are
    finite maps with string keys.  Calls that leave the program ([requests],
    [base64], the Solana SDK) are nodes of a program tree that an oracle
    answers, and every such call is recorded in a trace. *)

From Stdlib Require Import ZArith String Ascii List Lia.
From Stdlib Require Import PrimFloat FloatOps SpecFloat.
From Stdlib Require DecimalString DecimalPos DecimalZ.
From stdpp Require Import base option list strings gmap.

Set Warnings "-register-all".

Local Open Scope Z_scope.
Local Open Scope string_scope.

(** ** Python values *)

Module Py.

(** What [json.loads] can produce.  Integers have no fixed width (the
    parser reads them with [int], so none has more than 4300 digits),
    numbers written with a fraction or an exponent are binary64 floats,
    objects are [dict]s (a repeated key keeps its last value, which is the
    parser's business). *)
Inductive json : Type :=
| JNull
| JBool (b : bool)
| JInt (z : Z)
| JFloat (f : float)
| JStr (s : string)
| JArr (l : list json)
| JObj (m : gmap string json).

(** The exceptions the handler can end with.  [PyException] is the plain
    [Exception(msg)] the handler raises itself; [ExternalError] is whatever
    a call outside the program raises (connection errors, a body that is
    not JSON, a malformed transaction, ...). *)
Inductive exc : Type :=
| PyException (msg : string)
| AttributeError (attr : string)
| KeyError (key : string)
| TypeError
| ValueError
| OverflowError
| ExternalError (what : string).

(** The outcome of an expression that may raise. *)
Inductive result (A : Type) : Type :=
| Ok (a : A)
| Err (e : exc).
Arguments Ok {A} a.
Arguments Err {A} e.

#[global] Instance result_ret : MRet result := fun A a => Ok a.
#[global] Instance result_bind : MBind result := fun A B f r =>
  match r with
  | Ok a => f a
  | Err e => Err e
  end.

(** [d.get(k)]: [None] when the key is missing. *)
Definition dict_get (d : gmap string json) (k : string) : json :=
  default JNull (d !! k).

(** [d.get(k, dflt)] *)
Definition dict_get_default (d : gmap string json) (k : string) (dflt : json) : json :=
  default dflt (d !! k).

(** [d[k]]: [KeyError] when the key is missing. *)
Definition dict_getitem (d : gmap string json) (k : string) : result json :=
  match d !! k with
  | Some v => Ok v
  | None => Err (KeyError k)
  end.

(** [v.get(k)] on an arbitrary value: only a [dict] has the method. *)
Definition py_get (v : json) (k : string) : result json :=
  match v with
  | JObj d => Ok (dict_get d k)
  | _ => Err (AttributeError "get")
  end.

(** [v.get(k, dflt)] on an arbitrary value. *)
Definition py_get_default (v : json) (k : string) (dflt : json) : result json :=
  match v with
  | JObj d => Ok (dict_get_default d k dflt)
  | _ => Err (AttributeError "get")
  end.

(** [v[k]] with a string key [k]: a [dict] is looked up, a list or a string
    wants an integer index and anything else is not subscriptable; both of
    these are a [TypeError]. *)
Definition py_getitem (v : json) (k : string) : result json :=
  match v with
  | JObj d => dict_getitem d k
  | _ => Err TypeError
  end.

(** The items a [for] loop visits.  A string yields its characters, a dict
    its keys (here in the map's own order; the handler fails at the first
    key whichever it is), the other values are not iterable. *)
Definition py_iter (v : json) : result (list json) :=
  match v with
  | JArr l => Ok l
  | JStr s => Ok (map (fun c => JStr (String c EmptyString)) (list_ascii_of_string s))
  | JObj d => Ok (map (fun kv => JStr (fst kv)) (map_to_list d))
  | _ => Err TypeError
  end.

(** Truth value of a JSON value, as [not v] and [if v] test it. *)
Definition truthy (v : json) : bool :=
  match v with
  | JNull => false
  | JBool b => b
  | JInt z => negb (Z.eqb z 0)
  | JFloat f => negb (PrimFloat.eqb f PrimFloat.zero)
  | JStr s => match s with EmptyString => false | String _ _ => true end
  | JArr l => match l with [] => false | _ => true end
  | JObj d => negb (bool_decide (d = ∅))
  end.

(** [a == "..."] against a string literal: only an equal string is equal. *)
Definition eq_str (v : json) (s : string) : bool :=
  match v with
  | JStr t => String.eqb t s
  | _ => false
  end.

(** *** [int(...)] and [str(...)] *)

(** Strings are byte strings: the UTF-8 encoding of the Python text.

    Whitespace that [int] strips from both ends of ASCII text: the space
    and the controls 9 to 13. *)
Definition is_space (c : ascii) : bool :=
  let n := nat_of_ascii c in
  (((9 <=? n) && (n <=? 13)) || (n =? 32))%nat.

Definition digit_val (c : ascii) : option Z :=
  let n := nat_of_ascii c in
  if ((48 <=? n) && (n <=? 57))%nat then Some (Z.of_nat n - 48) else None.

(** Decimal digits, where a single underscore may separate two digits.
    [prev] tells whether the character just read was a digit. *)
Fixpoint digits (acc : Z) (prev : bool) (l : list ascii) : option Z :=
  match l with
  | [] => if prev then Some acc else None
  | c :: r =>
      if Ascii.eqb c "_"%char then
        if prev then digits acc false r else None
      else
        match digit_val c with
        | Some d => digits (10 * acc + d) true r
        | None => None
        end
  end.

Fixpoint lstrip (l : list ascii) : list ascii :=
  match l with
  | c :: r => if is_space c then lstrip r else l
  | [] => []
  end.

Definition strip (l : list ascii) : list ascii :=
  rev (lstrip (rev (lstrip l))).

(** The interpreter's limit on the number of digits of a conversion between
    [int] and [str] ([sys.get_int_max_str_digits()], at its default). *)
Definition MAX_STR_DIGITS : Z := 4300.

Definition is_digit (c : ascii) : bool :=
  match digit_val c with Some _ => true | None => false end.

(** The digits of a numeral, refused when there are more than the limit
    allows (underscores do not count, leading zeros do). *)
Definition limited_digits (l : list ascii) : option Z :=
  if Z.ltb MAX_STR_DIGITS (Z.of_nat (length (List.filter is_digit l))) then None
  else digits 0 false l.

(** The code points of UTF-8 text.  A sequence cut short gives the
    replacement character, which is neither a digit nor a space. *)
Fixpoint utf8_decode (l : list ascii) : list N :=
  match l with
  | [] => []
  | b0 :: r0 =>
      let n0 := N_of_ascii b0 in
      let low (b : ascii) : N := N.land (N_of_ascii b) 63 in
      if (n0 <? 128)%N then n0 :: utf8_decode r0
      else if (n0 <? 224)%N then
        match r0 with
        | b1 :: r1 => (N.land n0 31 * 64 + low b1)%N :: utf8_decode r1
        | _ => [0xfffd%N]
        end
      else if (n0 <? 240)%N then
        match r0 with
        | b1 :: b2 :: r2 =>
            ((N.land n0 15 * 64 + low b1) * 64 + low b2)%N :: utf8_decode r2
        | _ => [0xfffd%N]
        end
      else
        match r0 with
        | b1 :: b2 :: b3 :: r3 =>
            (((N.land n0 7 * 64 + low b1) * 64 + low b2) * 64 + low b3)%N
              :: utf8_decode r3
        | _ => [0xfffd%N]
        end
  end.

(** The whitespace characters outside ASCII. *)
Definition unicode_spaces : list N :=
  [0x85; 0xa0; 0x1680; 0x2000; 0x2001; 0x2002; 0x2003; 0x2004; 0x2005;
   0x2006; 0x2007; 0x2008; 0x2009; 0x200a; 0x2028; 0x2029; 0x202f; 0x205f;
   0x3000]%N.

(** The digit zero of every run of ten decimal digits outside ASCII
    (Unicode 14.0, the character database of the interpreter). *)
Definition decimal_zeros : list N :=
  [0x660; 0x6f0; 0x7c0; 0x966; 0x9e6; 0xa66; 0xae6; 0xb66; 0xbe6; 0xc66;
   0xce6; 0xd66; 0xde6; 0xe50; 0xed0; 0xf20; 0x1040; 0x1090; 0x17e0;
   0x1810; 0x1946; 0x19d0; 0x1a80; 0x1a90; 0x1b50; 0x1bb0; 0x1c40; 0x1c50;
   0xa620; 0xa8d0; 0xa900; 0xa9d0; 0xa9f0; 0xaa50; 0xabf0; 0xff10; 0x104a0;
   0x10d30; 0x11066; 0x110f0; 0x11136; 0x111d0; 0x112f0; 0x11450; 0x114d0;
   0x11650; 0x116c0; 0x11730; 0x118e0; 0x11950; 0x11c50; 0x11d50; 0x11da0;
   0x16a60; 0x16ac0; 0x16b50; 0x1d7ce; 0x1d7d8; 0x1d7e2; 0x1d7ec; 0x1d7f6;
   0x1e140; 0x1e2f0; 0x1e950; 0x1fbf0]%N.

(** The value of a decimal digit outside ASCII. *)
Definition unicode_decimal (cp : N) : option N :=
  match List.find (fun z => (z <=? cp)%N && (cp <? z + 10)%N) decimal_zeros with
  | Some z => Some (cp - z)%N
  | None => None
  end.

(** Text that is not all ASCII is first rewritten: a space outside ASCII
    becomes a space, a digit outside ASCII its ASCII digit, and at any
    other character outside ASCII the text ends with a question mark. *)
Fixpoint to_ascii_digits (cps : list N) : list ascii :=
  match cps with
  | [] => []
  | cp :: r =>
      if (cp <? 127)%N then ascii_of_N cp :: to_ascii_digits r
      else if existsb (N.eqb cp) unicode_spaces then " "%char :: to_ascii_digits r
      else
        match unicode_decimal cp with
        | Some d => ascii_of_N (48 + d) :: to_ascii_digits r
        | None => ["?"%char]
        end
  end.

Definition int_chars (l : list ascii) : list ascii :=
  if forallb (fun c => (N_of_ascii c <? 128)%N) l then l
  else to_ascii_digits (utf8_decode l).

(** [int(s)] for a string, base ten: optional surrounding whitespace, an
    optional sign, then the digits. *)
Definition int_of_string (s : string) : option Z :=
  match strip (int_chars (list_ascii_of_string s)) with
  | c :: r =>
      if Ascii.eqb c "+"%char then limited_digits r
      else if Ascii.eqb c "-"%char then Z.opp <$> limited_digits r
      else limited_digits (c :: r)
  | [] => None
  end.

(** [int(f)] for a float: truncation towards zero. *)
Definition int_of_float (f : float) : result Z :=
  match Prim2SF f with
  | S754_zero _ => Ok 0
  | S754_infinity _ => Err OverflowError
  | S754_nan => Err ValueError
  | S754_finite s m e =>
      let mag := if Z.leb 0 e then Z.pos m * 2 ^ e else Z.pos m / 2 ^ (- e) in
      Ok (if s then - mag else mag)
  end.

(** [int(v)] *)
Definition int (v : json) : result Z :=
  match v with
  | JInt z => Ok z
  | JBool b => Ok (if b then 1 else 0)
  | JFloat f => int_of_float f
  | JStr s => match int_of_string s with Some z => Ok z | None => Err ValueError end
  | JNull | JArr _ | JObj _ => Err TypeError
  end.

(** [str(z)] for an integer: its decimal numeral.  The interpreter refuses
    integers of more than [MAX_STR_DIGITS] digits; the handler only applies
    [str] to what [int] returned for a value out of [json.loads], which has
    no more digits than that. *)
Definition str (z : Z) : string :=
  DecimalString.NilZero.string_of_int (Z.to_int z).

End Py.

(** ** Calls that leave the program *)

Module Ext.
Import Py.

(** The dictionary [_parse_402_response] returns: its three entries. *)
Record PaymentInfo : Type := {
  token : json;
  amount : json;
  network : json
}.

(** A [requests.Response]: the status code and what [.json()] gives (the
    decoded body, or the error raised when the body is not JSON). *)
Record Response : Type := {
  status_code : Z;
  json_body : result json
}.

Definition bytes : Type := string.

(** Objects of the Solana SDK, opaque to the handler. *)
Inductive Keypair : Type := KeypairOf (secret : string).
Inductive Transaction : Type := TransactionOf (repr : string).
Inductive Signature : Type := SignatureOf (repr : string).
(** [Client(endpoint)] only records the endpoint. *)
Inductive Client : Type := ClientOf (endpoint : string).

(** The external calls of [example.py], with their arguments. *)
Inductive call : Type :=
| RequestsGet (url : string) (params headers : option (gmap string json))
| RequestsPost (url : string) (body : gmap string json)
| B64Decode (data : json)
| TransactionFromBytes (raw : bytes)
| TransactionSign (tx : Transaction) (kp : Keypair)
| ClientSendTransaction (cl : Client) (tx : Transaction)
| ClientConfirmTransaction (cl : Client) (sig : Signature).

(** What a call gives back when it does not raise.  [sign] works in place:
    its value here is the transaction as it is afterwards. *)
Definition value (c : call) : Type :=
  match c with
  | RequestsGet _ _ _ | RequestsPost _ _ => Response
  | B64Decode _ => bytes
  | TransactionFromBytes _ => Transaction
  | TransactionSign _ _ => Transaction
  | ClientSendTransaction _ _ => Signature
  | ClientConfirmTransaction _ _ => unit
  end.

(** The two payment methods of the handler are placeholders that perform no
    I/O of their own; their invocations are marked in the trace so that
    payment construction and submission can be spoken about. *)
Inductive step : Type :=
| CreatePaymentTransaction (payment_info : PaymentInfo)
| SendTransaction (transaction : json).

Inductive event : Type :=
| ECall (c : call)
| EStep (s : step).

(** Programs: trees whose nodes are external calls.  Output on [stdout]
    ([print]) is not part of the model. *)
Inductive prog (A : Type) : Type :=
| Ret (a : A)
| Raise (e : exc)
| Call (c : call) (k : value c -> prog A)
| Step (s : step) (k : prog A).
Arguments Ret {A} a.
Arguments Raise {A} e.
Arguments Call {A} c k.
Arguments Step {A} s k.

Fixpoint bind {A B : Type} (p : prog A) (f : A -> prog B) : prog B :=
  match p with
  | Ret a => f a
  | Raise e => Raise e
  | Call c k => Call c (fun v => bind (k v) f)
  | Step s k => Step s (bind k f)
  end.

#[global] Instance prog_ret : MRet prog := fun A a => Ret a.
#[global] Instance prog_bind : MBind prog := fun A B f p => bind p f.

(** A pure expression that may raise, as a program. *)
Definition lift {A : Type} (r : result A) : prog A :=
  match r with
  | Ok a => Ret a
  | Err e => Raise e
  end.

(** One external call. *)
Definition perform (c : call) : prog (value c) := Call c Ret.

(** The world outside: given what the program did so far, the answer to
    its next call (a value, or the exception the call raises). *)
Definition oracle : Type := list event -> forall c : call, result (value c).

(** Running a program against an oracle, from the history [hist]: the
    events it adds, in order, and how it ends. *)
Fixpoint run {A : Type} (o : oracle) (hist : list event) (p : prog A)
  : list event * result A :=
  match p with
  | Ret a => ([], Ok a)
  | Raise e => ([], Err e)
  | Call c k =>
      match o hist c with
      | Err e => ([ECall c], Err e)
      | Ok v =>
          let '(t, r) := run o (hist ++ [ECall c]) (k v) in
          (ECall c :: t, r)
      end
  | Step s k =>
      let '(t, r) := run o (hist ++ [EStep s]) k in
      (EStep s :: t, r)
  end.

End Ext.

(** ** The handler *)

Module Handler.
Import Py Ext.

Definition MOLTYDEX_API : string := "https://api.moltydex.com".
Definition SOLANA_RPC : string := "https://api.mainnet-beta.solana.com".

(** The state [__init__] leaves in [self] (reading the wallet file and
    deriving the address from the key are the SDK's work and not part of
    the model). *)
Record X402PaymentHandler : Type := {
  keypair : Keypair;
  wallet_address : string
}.

(** The loop of [_parse_402_response] over the items of [accepts]. *)
Fixpoint find_solana_option (accepts : list json) : result PaymentInfo :=
  match accepts with
  | [] => Err (PyException "No Solana payment option found")
  | option :: rest =>
      scheme ← py_get option "scheme";
      if eq_str scheme "solana" then
        tok ← py_getitem option "token";
        amt ← py_getitem option "amount";
        net ← py_get_default option "network" (JStr "mainnet");
        mret {| token := tok; amount := amt; network := net |}
      else find_solana_option rest
  end.

Definition _parse_402_response (response : Response) : result PaymentInfo :=
  payment_data ← json_body response;
  accepts ← py_get_default payment_data "accepts" (JArr []);
  items ← py_iter accepts;
  find_solana_option items.

Definition balance_url : string := MOLTYDEX_API ++ "/api/balance".
Definition quote_url : string := MOLTYDEX_API ++ "/api/quote".
Definition swap_url : string := MOLTYDEX_API ++ "/api/swap/build".

Definition balance_params (self : X402PaymentHandler) (token_address : json)
  : gmap string json :=
  {[ "wallet_address" := JStr (wallet_address self);
     "token_mint" := token_address ]}.

Definition _check_balance (self : X402PaymentHandler) (token_address : json) : prog Z :=
  response ← perform (RequestsGet balance_url (Some (balance_params self token_address)) None);
  data ← lift (json_body response);
  bal ← lift (py_get_default data "balance" (JInt 0));
  lift (int bal).

Definition quote_params (input_token : string) (output_token : json) (amount : Z)
  : gmap string json :=
  {[ "input_mint" := JStr input_token;
     "output_mint" := output_token;
     "amount" := JStr (str amount);
     "slippage_bps" := JStr "50" ]}.

Definition swap_data (self : X402PaymentHandler)
    (input_token : string) (output_token : json) (amount : Z) : gmap string json :=
  {[ "wallet_address" := JStr (wallet_address self);
     "input_mint" := JStr input_token;
     "output_mint" := output_token;
     "amount" := JStr (str amount);
     "slippage_bps" := JStr "50" ]}.

Definition _swap_tokens (self : X402PaymentHandler)
    (input_token : string) (output_token : json) (amount : Z) : prog bool :=
  quote_response ← perform (RequestsGet quote_url
                      (Some (quote_params input_token output_token amount)) None);
  quote ← lift (json_body quote_response);
  output_amount ← lift (py_get quote "output_amount");
  if negb (truthy output_amount) then mret false
  else
    swap_response ← perform (RequestsPost swap_url
                       (swap_data self input_token output_token amount));
    swap_result ← lift (json_body swap_response);
    tx_base64 ← lift (py_getitem swap_result "transaction");
    tx_bytes ← perform (B64Decode tx_base64);
    transaction ← perform (TransactionFromBytes tx_bytes);
    transaction ← perform (TransactionSign transaction (keypair self));
    let client := ClientOf SOLANA_RPC in
    signature ← perform (ClientSendTransaction client transaction);
    _ ← perform (ClientConfirmTransaction client signature);
    mret true.

Definition _create_payment_transaction (self : X402PaymentHandler)
    (payment_info : PaymentInfo) : prog json :=
  Step (CreatePaymentTransaction payment_info) (mret JNull).

Definition _send_transaction (self : X402PaymentHandler) (transaction : json)
  : prog string :=
  Step (SendTransaction transaction) (mret "transaction_signature").

Definition SOL_MINT : string := "So11111111111111111111111111111111111111112".

Definition payment_headers (payment_signature : string) (payment_info : PaymentInfo)
  : gmap string json :=
  {[ "X-Payment" := JStr payment_signature;
     "X-Payment-Amount" := amount payment_info;
     "X-Payment-Token" := token payment_info ]}.

Definition handle_402_response (self : X402PaymentHandler)
    (response : Response) (original_request_url : string) : prog Response :=
  if negb (Z.eqb (status_code response) 402) then mret response
  else
    payment_info ← lift (_parse_402_response response);
    balance ← _check_balance self (token payment_info);
    required_amount ← lift (int (amount payment_info));
    _ ← (if Z.ltb balance required_amount then
           swap_result ← _swap_tokens self SOL_MINT (token payment_info) required_amount;
           if negb swap_result then Raise (PyException "Failed to swap tokens")
           else mret tt
         else mret tt);
    payment_tx ← _create_payment_transaction self payment_info;
    payment_signature ← _send_transaction self payment_tx;
    perform (RequestsGet original_request_url None
               (Some (payment_headers payment_signature payment_info))).

End Handler.

(** ** What the statements observe *)

Module Observe.
Import Py Ext Handler.

Definition is_object (v : json) : bool :=
  match v with JObj _ => true | _ => false end.

(** An entry of [accepts] that the loop of [_parse_402_response] takes. *)
Definition is_solana_option (v : json) : bool :=
  match v with
  | JObj m => eq_str (dict_get m "scheme") "solana"
  | _ => false
  end.

(** The kinds of call the handler makes.  A quote request is a
    [requests.get] of the quote URL with query parameters. *)
Definition is_quote_request (e : event) : bool :=
  match e with
  | ECall (RequestsGet url (Some _) _) => String.eqb url quote_url
  | _ => false
  end.

Definition is_swap_build (e : event) : bool :=
  match e with ECall (RequestsPost _ _) => true | _ => false end.

Definition is_swap_submission (e : event) : bool :=
  match e with ECall (ClientSendTransaction _ _) => true | _ => false end.

Definition is_payment_construction (e : event) : bool :=
  match e with EStep (CreatePaymentTransaction _) => true | _ => false end.

Definition is_payment_submission (e : event) : bool :=
  match e with EStep (SendTransaction _) => true | _ => false end.

(** The retried request is the only [requests.get] that passes headers. *)
Definition is_retry (e : event) : bool :=
  match e with ECall (RequestsGet _ _ (Some _)) => true | _ => false end.

Definition count (f : event -> bool) (t : list event) : nat :=
  length (List.filter f t).

(** The calls behind the names above, with the arguments the handler
    gives them. *)
Definition balance_query (self : X402PaymentHandler) (info : PaymentInfo) : event :=
  ECall (RequestsGet balance_url (Some (balance_params self (token info))) None).

Definition quote_request (info : PaymentInfo) (amount : Z) : event :=
  ECall (RequestsGet quote_url (Some (quote_params SOL_MINT (token info) amount)) None).

Definition retried_request (info : PaymentInfo) (url : string) : call :=
  RequestsGet url None (Some (payment_headers "transaction_signature" info)).

(** Payment construction, payment submission and the retried request. *)
Definition payment_events (info : PaymentInfo) (url : string) : list event :=
  [ EStep (CreatePaymentTransaction info);
    EStep (SendTransaction JNull);
    ECall (retried_request info url) ].

(** The ["amount"] parameter of each quote request of a trace, in order. *)
Definition quote_amount (e : event) : option json :=
  match e with
  | ECall (RequestsGet url (Some params) _) =>
      if String.eqb url quote_url then Some (dict_get params "amount") else None
  | _ => None
  end.

Definition quote_amounts (t : list event) : list json := omap quote_amount t.

(** The events of a run from the empty history, and its outcome. *)
Definition trace_of {A} (o : oracle) (p : prog A) : list event := fst (run o [] p).
Definition outcome_of {A} (o : oracle) (p : prog A) : result A := snd (run o [] p).

End Observe.

(** ** Concrete worlds *)

Module Scenario.
Import Py Ext Handler.

Definition wallet : X402PaymentHandler :=
  {| keypair := KeypairOf "secret"; wallet_address := "WALLET" |}.

Definition api_url : string := "https://example-api.com/data".

(** The 402 body [{"accepts":[{"scheme":"solana","token":"TOKEN_MINT","amount":"1000000"}]}]. *)
Definition body_402 : json :=
  JObj {[ "accepts" :=
    JArr [ JObj {[ "scheme" := JStr "solana";
                   "token" := JStr "TOKEN_MINT";
                   "amount" := JStr "1000000" ]} ] ]}.

Definition response_402 : Response :=
  {| status_code := 402; json_body := Ok body_402 |}.

Definition ok_response (body : json) : Response :=
  {| status_code := 200; json_body := Ok body |}.

(** A world in which every service answers: the balance service with
    [balance_body], the quote service with [quote_body]. *)
Definition world (balance_body quote_body : json) : oracle :=
  fun _ c =>
    match c return result (value c) with
    | RequestsGet url (Some _) _ =>
        if String.eqb url balance_url then Ok (ok_response balance_body)
        else Ok (ok_response quote_body)
    | RequestsGet url None _ => Ok (ok_response (JObj {[ "data" := JStr "paid" ]}))
    | RequestsPost _ _ => Ok (ok_response (JObj {[ "transaction" := JStr "AQID" ]}))
    | B64Decode _ => Ok "raw"
    | TransactionFromBytes _ => Ok (TransactionOf "unsigned")
    | TransactionSign _ _ => Ok (TransactionOf "signed")
    | ClientSendTransaction _ _ => Ok (SignatureOf "swap_signature")
    | ClientConfirmTransaction _ _ => Ok tt
    end.

Definition balance_is (b : string) : json := JObj {[ "balance" := JStr b ]}.
Definition quote_is (q : string) : json := JObj {[ "output_amount" := JStr q ]}.

(** A body that offers another scheme first and then two Solana options. *)
Definition option_eth : gmap string json :=
  {[ "scheme" := JStr "ethereum"; "token" := JStr "ETH_TOKEN"; "amount" := JStr "1" ]}.
Definition option_sol_a : gmap string json :=
  {[ "scheme" := JStr "solana"; "token" := JStr "MINT_A"; "amount" := JStr "5" ]}.
Definition option_sol_b : gmap string json :=
  {[ "scheme" := JStr "solana"; "token" := JStr "MINT_B"; "amount" := JStr "7";
     "network" := JStr "devnet" ]}.

Definition accepts_map (l : list json) : gmap string json := {[ "accepts" := JArr l ]}.

Definition response_with (l : list json) : Response :=
  {| status_code := 402; json_body := Ok (JObj (accepts_map l)) |}.

(** What parsing [response_402] gives. *)
Definition info_402 : PaymentInfo :=
  {| token := JStr "TOKEN_MINT"; amount := JStr "1000000"; network := JStr "mainnet" |}.

Definition response_200 : Response :=
  {| status_code := 200; json_body := Ok (JObj {[ "data" := JStr "free" ]}) |}.

End Scenario.

(** ** The rest of the script: construction and the example run *)

Module Program.
Import Py Ext Handler.

(** [__init__] leaves the program three times: reading the wallet file as
    JSON, decoding the secret key and deriving the address.  The three are
    taken as given functions; what [__init__] does with them is the
    model. *)
Section Init.
(** [open(path)] followed by [json.load] *)
Variable load_json : string -> result json.
(** [Keypair.from_base58_string] *)
Variable from_base58_string : json -> result Keypair.
(** [str(keypair.pubkey())] *)
Variable pubkey_str : Keypair -> result string.

Definition init (wallet_path : string) : result X402PaymentHandler :=
  keypair_data ← load_json wallet_path;
  secret ← py_getitem keypair_data "secret_key";
  kp ← from_base58_string secret;
  address ← pubkey_str kp;
  mret {| keypair := kp; wallet_address := address |}.
End Init.

(** The line the example run prints last. *)
Inductive report : Type :=
| GotData (data : json)
| PlainResponse (data : json)
| ReportError (e : exc).

Definition EXAMPLE_URL : string := "https://example-api.com/data".

(** The body of the [try] block of the example run. *)
Definition main_try (handler : X402PaymentHandler) : prog report :=
  response ← perform (RequestsGet EXAMPLE_URL None None);
  if Z.eqb (status_code response) 402 then
    paid_response ← handle_402_response handler response EXAMPLE_URL;
    data ← lift (json_body paid_response);
    mret (GotData data)
  else
    data ← lift (json_body response);
    mret (PlainResponse data).

(** The example run once the handler is constructed: [except Exception]
    turns whatever the block raises into a printed line. *)
Definition main (o : oracle) (handler : X402PaymentHandler) : list event * report :=
  let '(t, r) := run o [] (main_try handler) in
  (t, match r with Ok line => line | Err e => ReportError e end).

(** The oracle as it answers after the events [hist]. *)
Definition after (o : oracle) (hist : list event) : oracle :=
  fun h c => o (hist ++ h)%list c.

End Program.

(** ** The itinerary of a run *)

Module Itinerary.
Import Py Ext Handler.

(** The kinds of event of the script. *)
Inductive kind : Type :=
| KInitial | KBalance | KQuote | KSwapBuild | KDecode | KFromBytes | KSign
| KSwapSubmit | KConfirm | KPayBuild | KPaySubmit | KRetry | KOther.

#[global] Instance kind_eq_dec : EqDecision kind.
Proof. solve_decision. Defined.

Definition kind_of (e : event) : kind :=
  match e with
  | ECall (RequestsGet _ _ (Some _)) => KRetry
  | ECall (RequestsGet url (Some _) None) =>
      if String.eqb url balance_url then KBalance
      else if String.eqb url quote_url then KQuote
      else KOther
  | ECall (RequestsGet _ None None) => KInitial
  | ECall (RequestsPost _ _) => KSwapBuild
  | ECall (B64Decode _) => KDecode
  | ECall (TransactionFromBytes _) => KFromBytes
  | ECall (TransactionSign _ _) => KSign
  | ECall (ClientSendTransaction _ _) => KSwapSubmit
  | ECall (ClientConfirmTransaction _ _) => KConfirm
  | EStep (CreatePaymentTransaction _) => KPayBuild
  | EStep (SendTransaction _) => KPaySubmit
  end.

Definition kinds (t : list event) : list kind := map kind_of t.

Definition swap_itinerary : list kind :=
  [KQuote; KSwapBuild; KDecode; KFromBytes; KSign; KSwapSubmit; KConfirm].

Definition payment_itinerary : list kind := [KPayBuild; KPaySubmit; KRetry].

(** The two complete runs of the handler on a 402 response. *)
Definition direct_itinerary : list kind := KBalance :: payment_itinerary.
Definition exchange_itinerary : list kind :=
  KBalance :: (swap_itinerary ++ payment_itinerary)%list.

(** The calls of a completed exchange, with the values that flow between
    them. *)
Definition swap_calls (self : X402PaymentHandler) (output_token : json) (amount : Z)
    (tx_base64 : json) (tx_bytes : bytes) (unsigned signed : Transaction)
    (signature : Signature) : list event :=
  [ ECall (RequestsGet quote_url (Some (quote_params SOL_MINT output_token amount)) None);
    ECall (RequestsPost swap_url (swap_data self SOL_MINT output_token amount));
    ECall (B64Decode tx_base64);
    ECall (TransactionFromBytes tx_bytes);
    ECall (TransactionSign unsigned (keypair self));
    ECall (ClientSendTransaction (ClientOf SOLANA_RPC) signed);
    ECall (ClientConfirmTransaction (ClientOf SOLANA_RPC) signature) ].

End Itinerary.

(** ** More concrete worlds *)

Module Worlds.
Import Py Ext Handler Scenario Program.

(** A Solana option without a token, one without an amount. *)
Definition option_no_token : gmap string json :=
  {[ "scheme" := JStr "solana"; "amount" := JStr "5" ]}.
Definition option_no_amount : gmap string json :=
  {[ "scheme" := JStr "solana"; "token" := JStr "MINT_A" ]}.

Definition response_of_body (body : result json) : Response :=
  {| status_code := 402; json_body := body |}.

(** A 402 response whose only option asks for the amount [amt]. *)
Definition response_asking (amt : json) : Response :=
  response_with [JObj {[ "scheme" := JStr "solana";
                         "token" := JStr "TOKEN_MINT";
                         "amount" := amt ]}].

Definition info_asking (amt : json) : PaymentInfo :=
  {| token := JStr "TOKEN_MINT"; amount := amt; network := JStr "mainnet" |}.

(** The world of [world], except that the call number [n] raises. *)
Definition failing_at (n : nat) (o : oracle) : oracle :=
  fun hist c =>
    if Nat.eqb (length hist) n then Err (ExternalError "unreachable") else o hist c.

(** The world of [world], except that the swap service answers [swap_body]. *)
Definition world_swap (balance_body quote_body swap_body : json) : oracle :=
  fun hist c =>
    match c as c' return result (value c') with
    | RequestsPost _ _ => Ok (ok_response swap_body)
    | c' => world balance_body quote_body hist c'
    end.

(** A world for the example run: the first request is answered by
    [first], everything else as in [world]. *)
Definition world_main (first : Response) (balance_body quote_body : json) : oracle :=
  fun hist c =>
    match c as c' return result (value c') with
    | RequestsGet _ None None => Ok first
    | c' => world balance_body quote_body hist c'
    end.

(** The world of [world], except that the retried request is answered by
    [paid]. *)
Definition world_retry (paid : Response) (balance_body quote_body : json) : oracle :=
  fun hist c =>
    match c as c' return result (value c') with
    | RequestsGet _ None (Some _) => Ok paid
    | c' => world balance_body quote_body hist c'
    end.

(** A wallet file and an SDK for [__init__]. *)
Definition load_wallet_file (path : string) : result json :=
  if String.eqb path "wallet.json" then Ok (JObj {[ "secret_key" := JStr "5Kb8" ]})
  else if String.eqb path "empty.json" then Ok (JObj ∅)
  else Err (ExternalError "FileNotFoundError").

Definition keypair_of_json (secret : json) : result Keypair :=
  match secret with
  | JStr s => Ok (KeypairOf s)
  | _ => Err TypeError
  end.

Definition address_of (kp : Keypair) : result string :=
  match kp with KeypairOf s => Ok ("addr:" ++ s) end.

End Worlds.

(** ** Decimal numerals *)

Module Numeral.
Import Py.

(** The characters of a decimal numeral. *)
Definition numeral (d : Decimal.uint) : list ascii :=
  list_ascii_of_string (DecimalString.NilEmpty.string_of_uint d).

(** The number of digits of the decimal numeral of an integer (its sign is
    not counted). *)
Definition decimal_digits (z : Z) : Z :=
  Z.of_nat (String.length (str (Z.abs z))).

End Numeral.

(** ** Python conversions on examples *)

Module PyFacts.
Import Py.

Example int_of_decimal_string : int (JStr "1000000") = Ok 1000000.
Proof. reflexivity. Qed.

Example int_strips_and_groups : int (JStr "  +1_000 ") = Ok 1000.
Proof. reflexivity. Qed.

Example int_negative : int (JStr "-42") = Ok (-42).
Proof. reflexivity. Qed.

Example int_rejects_text :
  int (JStr "12a") = Err ValueError /\ int (JStr "1__0") = Err ValueError /\
  int (JStr EmptyString) = Err ValueError /\ int (JStr "-") = Err ValueError.
Proof. repeat split. Qed.

Example int_of_other_values :
  int (JInt 7) = Ok 7 /\ int (JBool true) = Ok 1 /\ int JNull = Err TypeError /\
  int (JFloat 2.5%float) = Ok 2 /\ int (JFloat (-2.5)%float) = Ok (-2) /\
  int (JFloat infinity) = Err OverflowError /\ int (JFloat nan) = Err ValueError.
Proof. repeat split. Qed.

Example str_examples :
  str 0 = "0" /\ str 1000000 = "1000000" /\ str (-42) = "-42".
Proof. repeat split. Qed.

Example truthy_examples :
  truthy JNull = false /\ truthy (JStr EmptyString) = false /\ truthy (JStr "0") = true /\
  truthy (JInt 0) = false /\ truthy (JFloat (-0)%float) = false /\
  truthy (JArr []) = false /\ truthy (JObj ∅) = false /\
  truthy (JObj {[ "k" := JNull ]}) = true.
Proof. repeat split. Qed.

(** Digits and spaces outside ASCII are read as [int] reads them. *)
Example int_of_unicode_text :
  int (JStr "١٢٣") = Ok 123 /\ int (JStr "５　") = Ok 5 /\
  int (JStr "१२_३") = Ok 123 /\ int (JStr "²") = Err ValueError /\
  int (JStr "1é") = Err ValueError.
Proof. repeat split. Qed.

(** A numeral of 4300 digits is read, one of 4301 digits is refused. *)
Example int_digit_limit :
  (exists z, int (JStr (string_of_list_ascii (repeat "1"%char 4300))) = Ok z) /\
  int (JStr (string_of_list_ascii (repeat "1"%char 4301))) = Err ValueError /\
  int (JStr (string_of_list_ascii (repeat "0"%char 4301))) = Err ValueError.
Proof.
  split; [|split].
  - eexists. vm_compute. reflexivity.
  - vm_compute. reflexivity.
  - vm_compute. reflexivity.
Qed.

(** A string or a dict can be iterated, but its items have no [get]. *)
Example iterating_a_string :
  py_iter (JStr "ab") = Ok [JStr "a"; JStr "b"] /\
  py_get (JStr "a") "scheme" = Err (AttributeError "get") /\
  py_iter (JInt 3) = Err TypeError.
Proof. repeat split. Qed.

End PyFacts.

(** ** Running programs: equations *)

Module RunFacts.
Import Py Ext.
Local Open Scope list_scope.

Lemma run_lift {A} (o : oracle) hist (r : result A) : run o hist (lift r) = ([], r).
Proof. by destruct r. Qed.

Lemma run_perform (o : oracle) hist (c : call) :
  run o hist (perform c) = ([ECall c], o hist c).
Proof. unfold perform. simpl. by destruct (o hist c). Qed.

Lemma run_bind {A B} (o : oracle) (p : prog A) (f : A -> prog B) hist :
  run o hist (p ≫= f) =
    match run o hist p with
    | (t, Ok a) => let '(t', r) := run o (hist ++ t) (f a) in (t ++ t', r)
    | (t, Err e) => (t, Err e)
    end.
Proof.
  unfold mbind, prog_bind.
  revert hist. induction p as [a|e|c k IH|s k IH]; intros hist; simpl.
  - rewrite app_nil_r. by destruct (run o hist (f a)).
  - done.
  - destruct (o hist c) as [v|e]; [|done].
    rewrite IH. destruct (run o (hist ++ [ECall c]) (k v)) as [t [a|e]]; [|done].
    rewrite <- app_assoc. simpl.
    by destruct (run o (hist ++ ECall c :: t) (f a)).
  - rewrite IH. destruct (run o (hist ++ [EStep s]) k) as [t [a|e]]; [|done].
    rewrite <- app_assoc. simpl.
    by destruct (run o (hist ++ EStep s :: t) (f a)).
Qed.

End RunFacts.

(** ** Parsing the 402 body *)

Module ParseFacts.
Import Py Ext Handler Observe Scenario.
Local Open Scope list_scope.

(** Entries before the first Solana option are skipped when they are
    objects; the result is read off the first Solana option alone. *)
Lemma find_solana_option_first (pre post : list json) (m : gmap string json) :
  Forall (fun e => is_object e = true /\ is_solana_option e = false) pre ->
  is_solana_option (JObj m) = true ->
  find_solana_option (pre ++ JObj m :: post) =
    (tok ← dict_getitem m "token";
     amt ← dict_getitem m "amount";
     mret {| token := tok; amount := amt;
             network := dict_get_default m "network" (JStr "mainnet") |}).
Proof.
  intros Hpre Hm. induction Hpre as [|e pre [Hobj Hno] _ IH]; simpl.
  - simpl in Hm. rewrite Hm. simpl.
    destruct (dict_getitem m "token"); [|done]. simpl.
    by destruct (dict_getitem m "amount").
  - destruct e; try discriminate Hobj. simpl in *. by rewrite Hno.
Qed.

(** Without a Solana option the loop ends in an exception: the handler's
    own when every entry is an object. *)
Lemma find_solana_option_none (l : list json) :
  Forall (fun e => is_solana_option e = false) l ->
  exists e, find_solana_option l = Err e /\
    (Forall (fun v => is_object v = true) l ->
     e = PyException "No Solana payment option found").
Proof.
  induction 1 as [|v l Hno _ [e [IH1 IH2]]]; simpl.
  - eauto.
  - destruct v; simpl; try (eexists; split; [reflexivity|]; intros Hobj;
      apply Forall_cons_1 in Hobj as [? _]; discriminate).
    simpl in Hno. rewrite Hno. exists e. split; [done|].
    intros Hobj. apply Forall_cons_1 in Hobj as [_ ?]. auto.
Qed.

Lemma parse_of_accepts response d l :
  json_body response = Ok (JObj d) ->
  dict_get_default d "accepts" (JArr []) = JArr l ->
  _parse_402_response response = find_solana_option l.
Proof.
  intros Hb Ha. unfold _parse_402_response. rewrite Hb. simpl. by rewrite Ha.
Qed.

End ParseFacts.

(** ** The control flow of the handler, as equations on [run] *)

Module FlowFacts.
Import Py Ext Handler Observe RunFacts.
Local Open Scope list_scope.

(** [perform c] has type [prog (value c)] with [value c] already computed,
    so the equation for it is instantiated by hand. *)
Ltac run_call :=
  match goal with
  | |- context [ @run ?A ?o ?h (perform ?c) ] =>
      change (@run A o h (perform c)) with (@run (value c) o h (perform c));
      rewrite (run_perform o h c)
  end.

Ltac run_step :=
  first [ rewrite run_bind | run_call | rewrite run_lift ].

(** Closes a goal about a trace that has become a concrete list. *)
Ltac trace_facts :=
  eexists; repeat split; intros; unfold count in *; simpl in *;
  try done; try lia; try congruence.

(** The balance check is one call, whatever comes back. *)
Lemma check_balance_events (o : oracle) hist self (info : PaymentInfo) :
  fst (run o hist (_check_balance self (token info))) = [balance_query self info].
Proof.
  unfold _check_balance, balance_query.
  rewrite run_bind. run_call.
  destruct (o hist _) as [resp|e]; [|done].
  rewrite run_bind, run_lift.
  destruct (json_body resp) as [data|e]; [|done].
  rewrite run_bind, run_lift.
  destruct (py_get_default data "balance" (JInt 0)) as [bal|e]; [|done].
  rewrite run_lift. done.
Qed.

(** Payment construction, submission and retry: three events, and the
    outcome is the retried request's. *)
Lemma run_payment (o : oracle) hist self (info : PaymentInfo) (url : string) :
  run o hist
    ((payment_tx ← _create_payment_transaction self info;
      payment_signature ← _send_transaction self payment_tx;
      perform (RequestsGet url None (Some (payment_headers payment_signature info))))
     : prog Response)
  = (payment_events info url,
     o (hist ++ [EStep (CreatePaymentTransaction info); EStep (SendTransaction JNull)])
       (retried_request info url)).
Proof.
  unfold _create_payment_transaction, _send_transaction, payment_events, retried_request.
  unfold mbind, prog_bind, mret, prog_ret. simpl.
  rewrite <- app_assoc. simpl.
  by destruct (o _ _).
Qed.

(** The events of an exchange: the quote request comes first and once;
    nothing in an exchange is a retried request or a payment step; there
    is at most one swap submission.  A refused exchange ([False]) is the
    quote request alone, a completed one has built and submitted once. *)
Lemma swap_tokens_events (o : oracle) hist self (info : PaymentInfo) (r : Z) :
  exists rest,
    fst (run o hist (_swap_tokens self SOL_MINT (token info) r))
      = quote_request info r :: rest /\
    count is_quote_request rest = 0%nat /\
    count is_retry rest = 0%nat /\
    count is_payment_construction rest = 0%nat /\
    count is_payment_submission rest = 0%nat /\
    (count is_swap_submission rest <= 1)%nat /\
    (snd (run o hist (_swap_tokens self SOL_MINT (token info) r)) = Ok false ->
     rest = []) /\
    (snd (run o hist (_swap_tokens self SOL_MINT (token info) r)) = Ok true ->
     count is_swap_build rest = 1%nat /\ count is_swap_submission rest = 1%nat).
Proof.
  unfold _swap_tokens, quote_request.
  rewrite run_bind. run_call.
  destruct (o hist _) as [qresp|e]; [|by trace_facts].
  rewrite run_bind, run_lift.
  destruct (json_body qresp) as [quote|e]; [|by trace_facts].
  rewrite run_bind, run_lift.
  destruct (py_get quote "output_amount") as [oa|e];
    [|by trace_facts].
  destruct (truthy oa); simpl negb; cbv iota;
    [|by trace_facts].
  repeat first
    [ run_step
    | match goal with
      | |- context [ match ?x with Ok _ => _ | Err _ => _ end ] =>
          destruct x eqn:?; simpl
      end ];
    by trace_facts.
Qed.

(** The handler on a 402 response with a parsed requirement, branch by
    branch. *)
Lemma run_handle_402 (o : oracle) self response url (info : PaymentInfo) :
  status_code response = 402 ->
  _parse_402_response response = Ok info ->
  run o [] (handle_402_response self response url) =
    match run o [] (_check_balance self (token info)) with
    | (tb, Err e) => (tb, Err e)
    | (tb, Ok balance) =>
        match int (amount info) with
        | Err e => (tb, Err e)
        | Ok required =>
            if Z.ltb balance required then
              match run o tb (_swap_tokens self SOL_MINT (token info) required) with
              | (ts, Err e) => (tb ++ ts, Err e)
              | (ts, Ok false) => (tb ++ ts, Err (PyException "Failed to swap tokens"))
              | (ts, Ok true) =>
                  (tb ++ ts ++ payment_events info url,
                   o ((tb ++ ts) ++ [EStep (CreatePaymentTransaction info);
                                     EStep (SendTransaction JNull)])
                     (retried_request info url))
              end
            else
              (tb ++ payment_events info url,
               o (tb ++ [EStep (CreatePaymentTransaction info);
                         EStep (SendTransaction JNull)])
                 (retried_request info url))
        end
    end.
Proof.
  intros Hs Hp. unfold handle_402_response. rewrite Hs, Hp.
  change (negb (Z.eqb 402 402)) with false. cbv iota.
  rewrite run_bind, run_lift. cbv beta iota. cbn [app].
  rewrite run_bind.
  destruct (run o [] (_check_balance self (token info))) as [tb [b|e]]; [|done].
  cbn [app]. rewrite run_bind, run_lift, app_nil_r.
  destruct (int (amount info)) as [r|e]; [|by rewrite app_nil_r].
  rewrite run_bind.
  destruct (Z.ltb b r).
  - rewrite run_bind.
    destruct (run o tb (_swap_tokens self SOL_MINT (token info) r)) as [ts [[|]|e]].
    + cbn [negb run mret prog_ret]. rewrite !app_nil_r, run_payment.
      cbn [app]. by rewrite ?app_assoc.
    + cbn [negb run app]. by rewrite ?app_nil_r.
    + cbn [app]. by rewrite ?app_nil_r.
  - cbn [run mret prog_ret]. rewrite !app_nil_r, run_payment.
    done.
Qed.

(** The two ways the handler ends without any event. *)
Lemma run_handle_other_status (o : oracle) self response url :
  status_code response <> 402 ->
  fst (run o [] (handle_402_response self response url)) = [] /\
  snd (run o [] (handle_402_response self response url)) = Ok response.
Proof.
  intros Hs. apply Z.eqb_neq in Hs. unfold handle_402_response. by rewrite Hs.
Qed.

Lemma run_handle_402_unparsed (o : oracle) self response url (e : exc) :
  status_code response = 402 ->
  _parse_402_response response = Err e ->
  run o [] (handle_402_response self response url) = ([], Err e).
Proof.
  intros Hs Hp. unfold handle_402_response. rewrite Hs, Hp.
  change (negb (Z.eqb 402 402)) with false. cbv iota.
  by rewrite run_bind, run_lift.
Qed.

(** Counting over traces. *)
Lemma count_app (f : event -> bool) (t1 t2 : list event) :
  count f (t1 ++ t2) = (count f t1 + count f t2)%nat.
Proof. unfold count. by rewrite List.filter_app, length_app. Qed.

Lemma count_zero_In (f : event -> bool) (t : list event) (e : event) :
  count f t = 0%nat -> In e t -> f e = false.
Proof.
  unfold count. intros Hc Hin.
  destruct (f e) eqn:Hf; [|done].
  assert (Hin' : In e (List.filter f t)) by (apply List.filter_In; auto).
  destruct (List.filter f t); [destruct Hin' | discriminate Hc].
Qed.

Lemma quote_amounts_none (t : list event) :
  count is_quote_request t = 0%nat -> quote_amounts t = [].
Proof.
  unfold count, quote_amounts. induction t as [|e t IH]; [done|]. simpl.
  destruct e as [[url [p|] h| | | | | |]|]; simpl; auto.
  destruct (String.eqb url quote_url); simpl; [discriminate|auto].
Qed.

Lemma quote_amounts_app (t1 t2 : list event) :
  quote_amounts (t1 ++ t2) = quote_amounts t1 ++ quote_amounts t2.
Proof. unfold quote_amounts. apply omap_app. Qed.

End FlowFacts.

(** ** Properties of the handler *)

Module HandlerSpec.
Import Py Ext Handler Observe Scenario RunFacts ParseFacts FlowFacts.
Local Open Scope list_scope.

(** C2: a response whose status is not 402 is returned as it is; the
    handler's program is a bare return, so that whatever the world would
    answer, the run has no event: no balance query, no quote, no swap, no
    payment and no retried request. *)
Theorem passthrough_when_not_402 (self : X402PaymentHandler) (response : Response)
    (url : string) :
  status_code response <> 402 ->
  handle_402_response self response url = Ret response /\
  forall (o : oracle) hist,
    run o hist (handle_402_response self response url) = ([], Ok response).
Proof.
  intros Hs. apply Z.eqb_neq in Hs.
  assert (Hp : handle_402_response self response url = Ret response).
  { unfold handle_402_response. by rewrite Hs. }
  split; [done|]. intros o hist. by rewrite Hp.
Qed.

Lemma passthrough_when_not_402_witness :
  handle_402_response wallet response_200 api_url = Ret response_200 /\
  forall (o : oracle) hist,
    run o hist (handle_402_response wallet response_200 api_url) = ([], Ok response_200).
Proof. apply (passthrough_when_not_402 wallet response_200 api_url). simpl. lia. Defined.

(** C3: on a 402 response whose [accepts] list has no entry with scheme
    ["solana"], the handler ends in an exception before any event: no
    balance query, no exchange call, no payment.  When the entries are
    objects, as the body format has them, the exception is the handler's
    own "No Solana payment option found". *)
Theorem unsupported_scheme_fails_without_calls (o : oracle) hist
    (self : X402PaymentHandler) (response : Response) (url : string)
    (d : gmap string json) (l : list json) :
  status_code response = 402 ->
  json_body response = Ok (JObj d) ->
  dict_get_default d "accepts" (JArr []) = JArr l ->
  Forall (fun e => is_solana_option e = false) l ->
  exists e,
    run o hist (handle_402_response self response url) = ([], Err e) /\
    (Forall (fun v => is_object v = true) l ->
     e = PyException "No Solana payment option found").
Proof.
  intros Hs Hb Ha Hno.
  destruct (find_solana_option_none l Hno) as [e [He Hobj]].
  exists e. split; [|done].
  unfold handle_402_response. rewrite Hs. simpl.
  rewrite (parse_of_accepts _ _ _ Hb Ha), He. done.
Qed.

Lemma unsupported_scheme_fails_without_calls_witness :
  exists e,
    run (world (balance_is "5") (quote_is "5")) []
        (handle_402_response wallet (response_with [JObj option_eth]) api_url)
      = ([], Err e) /\
    (Forall (fun v => is_object v = true) [JObj option_eth] ->
     e = PyException "No Solana payment option found").
Proof.
  apply (unsupported_scheme_fails_without_calls _ _ _ _ _
           (accepts_map [JObj option_eth]) [JObj option_eth]).
  - reflexivity.
  - reflexivity.
  - vm_compute. reflexivity.
  - repeat constructor.
Defined.

(** C7: when the [accepts] list has an entry with scheme ["solana"],
    parsing takes the first one in list order and returns its token and
    amount; what follows it in the list has no influence. *)
Theorem parse_selects_first_supported (response : Response) (d : gmap string json)
    (pre post : list json) (m : gmap string json) (t a : json) :
  json_body response = Ok (JObj d) ->
  dict_get_default d "accepts" (JArr []) = JArr (pre ++ JObj m :: post) ->
  Forall (fun e => is_object e = true /\ is_solana_option e = false) pre ->
  is_solana_option (JObj m) = true ->
  m !! "token" = Some t ->
  m !! "amount" = Some a ->
  _parse_402_response response =
    Ok {| token := t; amount := a;
          network := dict_get_default m "network" (JStr "mainnet") |}.
Proof.
  intros Hb Ha Hpre Hm Ht Hamt.
  rewrite (parse_of_accepts _ _ _ Hb Ha).
  rewrite (find_solana_option_first pre post m Hpre Hm).
  unfold dict_getitem. by rewrite Ht, Hamt.
Qed.

Lemma parse_selects_first_supported_witness :
  _parse_402_response
    (response_with [JObj option_eth; JObj option_sol_a; JObj option_sol_b]) =
    Ok {| token := JStr "MINT_A"; amount := JStr "5";
          network := dict_get_default option_sol_a "network" (JStr "mainnet") |}.
Proof.
  apply (parse_selects_first_supported _
           (accepts_map [JObj option_eth; JObj option_sol_a; JObj option_sol_b])
           [JObj option_eth] [JObj option_sol_b] option_sol_a).
  - reflexivity.
  - vm_compute. reflexivity.
  - repeat constructor.
  - vm_compute. reflexivity.
  - vm_compute. reflexivity.
  - vm_compute. reflexivity.
Defined.

(** C9: the parsed requirement's network is ["mainnet"] when the selected
    entry has no ["network"] field, and the field's value when it has one. *)
Theorem network_defaults_to_mainnet (response : Response) (d : gmap string json)
    (pre post : list json) (m : gmap string json) (t a : json) :
  json_body response = Ok (JObj d) ->
  dict_get_default d "accepts" (JArr []) = JArr (pre ++ JObj m :: post) ->
  Forall (fun e => is_object e = true /\ is_solana_option e = false) pre ->
  is_solana_option (JObj m) = true ->
  m !! "token" = Some t ->
  m !! "amount" = Some a ->
  exists info,
    _parse_402_response response = Ok info /\
    (m !! "network" = None -> network info = JStr "mainnet") /\
    (forall n, m !! "network" = Some n -> network info = n).
Proof.
  intros Hb Ha Hpre Hm Ht Hamt.
  eexists. split.
  - rewrite (parse_of_accepts _ _ _ Hb Ha).
    rewrite (find_solana_option_first pre post m Hpre Hm).
    unfold dict_getitem. rewrite Ht, Hamt. reflexivity.
  - unfold dict_get_default. simpl. split.
    + intros ->. done.
    + intros n ->. done.
Qed.

Lemma network_defaults_to_mainnet_witness :
  exists info,
    _parse_402_response (response_with [JObj option_sol_a; JObj option_sol_b]) = Ok info /\
    (option_sol_a !! "network" = None -> network info = JStr "mainnet") /\
    (forall n, option_sol_a !! "network" = Some n -> network info = n).
Proof.
  apply (network_defaults_to_mainnet _
           (accepts_map [JObj option_sol_a; JObj option_sol_b])
           [] [JObj option_sol_b] option_sol_a (JStr "MINT_A") (JStr "5")).
  - reflexivity.
  - vm_compute. reflexivity.
  - constructor.
  - vm_compute. reflexivity.
  - vm_compute. reflexivity.
  - vm_compute. reflexivity.
Defined.

(** C4: with a supported entry and a balance that is at least the required
    amount, the handler goes from the balance query straight to payment
    construction, payment submission and the retried request; there is no
    quote, swap-build or swap-submit call. *)
Theorem sufficient_balance_skips_exchange (o : oracle) self response url
    (info : PaymentInfo) (tb : list event) (b r : Z) :
  status_code response = 402 ->
  _parse_402_response response = Ok info ->
  run o [] (_check_balance self (token info)) = (tb, Ok b) ->
  int (amount info) = Ok r ->
  r <= b ->
  let t := trace_of o (handle_402_response self response url) in
  t = balance_query self info :: payment_events info url /\
  count is_quote_request t = 0%nat /\
  count is_swap_build t = 0%nat /\
  count is_swap_submission t = 0%nat.
Proof.
  intros Hs Hp Hb Hr Hle t.
  assert (Ht : t = balance_query self info :: payment_events info url).
  { subst t. unfold trace_of. rewrite (run_handle_402 o self response url info Hs Hp).
    pose proof (check_balance_events o [] self info) as Htb.
    rewrite Hb in Htb |- *. simpl in Htb. subst tb.
    rewrite Hr. apply Z.ltb_ge in Hle. rewrite Hle. done. }
  rewrite Ht. repeat split; reflexivity.
Qed.

Lemma sufficient_balance_skips_exchange_witness :
  let t := trace_of (world (balance_is "2000000") (quote_is "1000000"))
             (handle_402_response wallet response_402 api_url) in
  t = balance_query wallet info_402 :: payment_events info_402 api_url /\
  count is_quote_request t = 0%nat /\
  count is_swap_build t = 0%nat /\
  count is_swap_submission t = 0%nat.
Proof.
  apply (sufficient_balance_skips_exchange _ wallet response_402 api_url info_402
           [balance_query wallet info_402] 2000000 1000000).
  - reflexivity.
  - vm_compute. reflexivity.
  - vm_compute. reflexivity.
  - vm_compute. reflexivity.
  - lia.
Defined.

(** C6: when the balance is short and the quote service's answer has no
    output amount (the field is missing, or its value is empty or zero),
    the handler stops after the quote request with its "Failed to swap
    tokens" exception: no swap is built and none is submitted. *)
Theorem quote_without_output_aborts (o : oracle) self response url
    (info : PaymentInfo) (tb : list event) (b r : Z)
    (qresp : Response) (quote : gmap string json) :
  status_code response = 402 ->
  _parse_402_response response = Ok info ->
  run o [] (_check_balance self (token info)) = (tb, Ok b) ->
  int (amount info) = Ok r ->
  b < r ->
  o [balance_query self info]
    (RequestsGet quote_url (Some (quote_params SOL_MINT (token info) r)) None)
    = Ok qresp ->
  json_body qresp = Ok (JObj quote) ->
  truthy (dict_get quote "output_amount") = false ->
  run o [] (handle_402_response self response url) =
    ([balance_query self info; quote_request info r],
     Err (PyException "Failed to swap tokens")).
Proof.
  intros Hs Hp Hb Hr Hlt Hq Hj Hout.
  rewrite (run_handle_402 o self response url info Hs Hp).
  pose proof (check_balance_events o [] self info) as Htb.
  rewrite Hb in Htb |- *. simpl in Htb. subst tb.
  rewrite Hr. apply Z.ltb_lt in Hlt. rewrite Hlt.
  unfold _swap_tokens. rewrite run_bind. run_call. rewrite Hq.
  rewrite run_bind, run_lift, Hj. rewrite run_bind, run_lift.
  cbn [py_get]. rewrite Hout. reflexivity.
Qed.

Lemma quote_without_output_aborts_witness :
  run (world (balance_is "500000") (JObj ∅)) []
      (handle_402_response wallet response_402 api_url) =
    ([balance_query wallet info_402; quote_request info_402 1000000],
     Err (PyException "Failed to swap tokens")).
Proof.
  apply (quote_without_output_aborts _ wallet response_402 api_url info_402
           [balance_query wallet info_402] 500000 1000000 (ok_response (JObj ∅)) ∅).
  - reflexivity.
  - vm_compute. reflexivity.
  - vm_compute. reflexivity.
  - vm_compute. reflexivity.
  - lia.
  - vm_compute. reflexivity.
  - reflexivity.
  - vm_compute. reflexivity.
Defined.

(** C10: when the body of the balance answer has no ["balance"] field the
    balance check returns 0, and the handler then takes the exchange
    branch whenever the required amount is positive: its next call is the
    quote request. *)
Theorem missing_balance_counts_as_zero (o : oracle) self response url
    (info : PaymentInfo) (bresp : Response) (d : gmap string json) :
  status_code response = 402 ->
  _parse_402_response response = Ok info ->
  o [] (RequestsGet balance_url (Some (balance_params self (token info))) None)
    = Ok bresp ->
  json_body bresp = Ok (JObj d) ->
  d !! "balance" = None ->
  run o [] (_check_balance self (token info)) = ([balance_query self info], Ok 0) /\
  forall r, int (amount info) = Ok r -> 0 < r ->
    exists rest,
      trace_of o (handle_402_response self response url) =
        balance_query self info :: quote_request info r :: rest.
Proof.
  intros Hs Hp Ho Hj Hd.
  assert (Hb : run o [] (_check_balance self (token info))
               = ([balance_query self info], Ok 0)).
  { unfold _check_balance. rewrite run_bind. run_call. rewrite Ho.
    rewrite run_bind, run_lift, Hj. rewrite run_bind, run_lift.
    cbn [py_get_default]. unfold dict_get_default. rewrite Hd.
    cbn [default]. rewrite run_lift. reflexivity. }
  split; [done|]. intros r Hr Hpos.
  unfold trace_of. rewrite (run_handle_402 o self response url info Hs Hp), Hb, Hr.
  apply Z.ltb_lt in Hpos. rewrite Hpos.
  destruct (swap_tokens_events o [balance_query self info] self info r)
    as [rest [Hev _]].
  destruct (run o [balance_query self info] (_swap_tokens self SOL_MINT (token info) r))
    as [ts [[|]|e]]; simpl in Hev; subst ts; simpl; eauto.
Qed.

Lemma missing_balance_counts_as_zero_witness :
  run (world (JObj ∅) (quote_is "1000000")) [] (_check_balance wallet (token info_402))
    = ([balance_query wallet info_402], Ok 0) /\
  forall r, int (amount info_402) = Ok r -> 0 < r ->
    exists rest,
      trace_of (world (JObj ∅) (quote_is "1000000"))
               (handle_402_response wallet response_402 api_url) =
        balance_query wallet info_402 :: quote_request info_402 r :: rest.
Proof.
  apply (missing_balance_counts_as_zero _ wallet response_402 api_url info_402
           (ok_response (JObj ∅)) ∅).
  - reflexivity.
  - vm_compute. reflexivity.
  - vm_compute. reflexivity.
  - reflexivity.
  - reflexivity.
Defined.

(** C1, as the code has it: with a supported entry and a balance strictly
    below the required amount, the handler issues exactly one quote
    request, and its ["amount"] parameter is the decimal numeral of the
    whole required amount (not of the shortfall). *)
Theorem short_balance_quotes_required_amount (o : oracle) self response url
    (info : PaymentInfo) (tb : list event) (b r : Z) :
  status_code response = 402 ->
  _parse_402_response response = Ok info ->
  run o [] (_check_balance self (token info)) = (tb, Ok b) ->
  int (amount info) = Ok r ->
  b < r ->
  let t := trace_of o (handle_402_response self response url) in
  count is_quote_request t = 1%nat /\
  quote_amounts t = [JStr (str r)].
Proof.
  intros Hs Hp Hb Hr Hlt t. subst t. unfold trace_of.
  rewrite (run_handle_402 o self response url info Hs Hp).
  pose proof (check_balance_events o [] self info) as Htb.
  rewrite Hb in Htb |- *. simpl in Htb. subst tb.
  rewrite Hr. apply Z.ltb_lt in Hlt. rewrite Hlt.
  destruct (swap_tokens_events o [balance_query self info] self info r)
    as [rest (Hev & Hq & _)].
  assert (Hone : count is_quote_request
                   ([balance_query self info] ++ quote_request info r :: rest) = 1%nat).
  { change (quote_request info r :: rest) with ([quote_request info r] ++ rest).
    rewrite !count_app, Hq. reflexivity. }
  assert (Hamt : quote_amounts
                   ([balance_query self info] ++ quote_request info r :: rest)
                 = [JStr (str r)]).
  { change (quote_request info r :: rest) with ([quote_request info r] ++ rest).
    rewrite !quote_amounts_app, (quote_amounts_none rest Hq). reflexivity. }
  destruct (run o [balance_query self info] (_swap_tokens self SOL_MINT (token info) r))
    as [ts [[|]|e]]; simpl in Hev; subst ts; cbn [fst]; try done.
  change ([balance_query self info] ++
            (quote_request info r :: rest) ++ payment_events info url)
    with (([balance_query self info] ++ quote_request info r :: rest)
            ++ payment_events info url).
  rewrite count_app, quote_amounts_app, Hone, Hamt. done.
Qed.

Lemma short_balance_quotes_required_amount_witness :
  let t := trace_of (world (balance_is "500000") (quote_is "1000000"))
             (handle_402_response wallet response_402 api_url) in
  count is_quote_request t = 1%nat /\
  quote_amounts t = [JStr (str 1000000)].
Proof.
  apply (short_balance_quotes_required_amount _ wallet response_402 api_url info_402
           [balance_query wallet info_402] 500000 1000000).
  - reflexivity.
  - vm_compute. reflexivity.
  - vm_compute. reflexivity.
  - vm_compute. reflexivity.
  - lia.
Defined.

(** C1, as the claim states it, fails on the example of the specification:
    required amount 1000000 and balance 500000.  The one quote request
    carries amount ["1000000"], not the shortfall ["500000"]. *)
Lemma shortfall_quote_counterexample :
  let t := trace_of (world (balance_is "500000") (quote_is "1000000"))
             (handle_402_response wallet response_402 api_url) in
  _parse_402_response response_402 = Ok info_402 /\
  int (amount info_402) = Ok 1000000 /\
  outcome_of (world (balance_is "500000") (quote_is "1000000"))
    (_check_balance wallet (token info_402)) = Ok 500000 /\
  quote_amounts t = [JStr "1000000"] /\
  quote_amounts t <> [JStr (str (1000000 - 500000))] /\
  quote_amounts t <> [JStr "500000"].
Proof. vm_compute. repeat split; try reflexivity; discriminate. Qed.

(** C5: whenever the handler reaches the retry, that is, on a 402 response
    whose requirement was parsed, once the balance check and the amount
    conversion succeeded and the balance suffices or the exchange
    completed, the run ends with payment construction, payment submission
    and the retried request.  The retried request goes to the original URL
    with exactly the three headers [X-Payment], [X-Payment-Amount] and
    [X-Payment-Token]: the last two are the amount and token of the parsed
    requirement as they were parsed, and [X-Payment] is the reference that
    the payment submission of this run returned.  No earlier call of the
    run carries headers, and the run's outcome is the answer to the
    retried request. *)
Theorem retry_carries_payment_headers (o : oracle) self response url
    (info : PaymentInfo) (tb : list event) (b r : Z) :
  status_code response = 402 ->
  _parse_402_response response = Ok info ->
  run o [] (_check_balance self (token info)) = (tb, Ok b) ->
  int (amount info) = Ok r ->
  r <= b \/
  snd (run o [balance_query self info] (_swap_tokens self SOL_MINT (token info) r))
    = Ok true ->
  exists (mid : list event) (payment_tx : json) (reference : string),
    (forall o' hist,
       run o' hist (_create_payment_transaction self info)
         = ([EStep (CreatePaymentTransaction info)], Ok payment_tx)) /\
    (forall o' hist,
       run o' hist (_send_transaction self payment_tx)
         = ([EStep (SendTransaction payment_tx)], Ok reference)) /\
    let headers : gmap string json :=
      {[ "X-Payment" := JStr reference;
         "X-Payment-Amount" := amount info;
         "X-Payment-Token" := token info ]} in
    let before :=
      balance_query self info :: mid ++
        [EStep (CreatePaymentTransaction info); EStep (SendTransaction payment_tx)] in
    run o [] (handle_402_response self response url)
      = (before ++ [ECall (RequestsGet url None (Some headers))],
         o before (RequestsGet url None (Some headers))) /\
    count is_retry before = 0%nat /\
    dom headers = {[ "X-Payment"; "X-Payment-Amount"; "X-Payment-Token" ]}.
Proof.
  intros Hs Hp Hb Hr Hreach.
  exists (if Z.ltb b r
          then fst (run o [balance_query self info]
                      (_swap_tokens self SOL_MINT (token info) r))
          else []), JNull, "transaction_signature".
  split; [done|]. split; [done|].
  cbv zeta. split; [|split].
  - rewrite (run_handle_402 o self response url info Hs Hp).
    pose proof (check_balance_events o [] self info) as Htb.
    rewrite Hb in Htb |- *. simpl in Htb. subst tb. rewrite Hr.
    destruct (Z.ltb b r) eqn:Hlt.
    + destruct Hreach as [Hle|Hswap]; [apply Z.ltb_lt in Hlt; lia|].
      destruct (run o [balance_query self info]
                  (_swap_tokens self SOL_MINT (token info) r)) as [ts res].
      simpl in Hswap. subst res. cbn [fst].
      unfold payment_events, retried_request, payment_headers.
      simpl. rewrite <- !app_assoc. reflexivity.
    + reflexivity.
  - destruct (Z.ltb b r); [|reflexivity].
    destruct (swap_tokens_events o [balance_query self info] self info r)
      as [rest (Hev & _ & Hretry & _)].
    rewrite Hev.
    change (balance_query self info :: (quote_request info r :: rest) ++
              [EStep (CreatePaymentTransaction info); EStep (SendTransaction JNull)])
      with ([balance_query self info; quote_request info r] ++ rest ++
              [EStep (CreatePaymentTransaction info); EStep (SendTransaction JNull)]).
    rewrite !count_app, Hretry. reflexivity.
  - rewrite !dom_insert_L, dom_singleton_L. set_solver.
Qed.

Lemma retry_carries_payment_headers_witness :
  let o := world (balance_is "500000") (quote_is "1000000") in
  exists (mid : list event) (payment_tx : json) (reference : string),
    (forall o' hist,
       run o' hist (_create_payment_transaction wallet info_402)
         = ([EStep (CreatePaymentTransaction info_402)], Ok payment_tx)) /\
    (forall o' hist,
       run o' hist (_send_transaction wallet payment_tx)
         = ([EStep (SendTransaction payment_tx)], Ok reference)) /\
    let headers : gmap string json :=
      {[ "X-Payment" := JStr reference;
         "X-Payment-Amount" := amount info_402;
         "X-Payment-Token" := token info_402 ]} in
    let before :=
      balance_query wallet info_402 :: mid ++
        [EStep (CreatePaymentTransaction info_402); EStep (SendTransaction payment_tx)] in
    run o [] (handle_402_response wallet response_402 api_url)
      = (before ++ [ECall (RequestsGet api_url None (Some headers))],
         o before (RequestsGet api_url None (Some headers))) /\
    count is_retry before = 0%nat /\
    dom headers = {[ "X-Payment"; "X-Payment-Amount"; "X-Payment-Token" ]}.
Proof.
  apply (retry_carries_payment_headers
           (world (balance_is "500000") (quote_is "1000000"))
           wallet response_402 api_url info_402
           [balance_query wallet info_402] 500000 1000000).
  - reflexivity.
  - vm_compute. reflexivity.
  - vm_compute. reflexivity.
  - vm_compute. reflexivity.
  - right. vm_compute. reflexivity.
Defined.

(** C8: a call on a 402 response that returns (rather than raises) has made
    at most one swap submission and exactly one payment submission. *)
Theorem success_submits_payment_once (o : oracle) self response url
    (t : list event) (paid : Response) :
  status_code response = 402 ->
  run o [] (handle_402_response self response url) = (t, Ok paid) ->
  (count is_swap_submission t <= 1)%nat /\
  count is_payment_submission t = 1%nat.
Proof.
  intros Hs Hrun.
  destruct (_parse_402_response response) as [info|e] eqn:Hp.
  2:{ rewrite (run_handle_402_unparsed o self response url e Hs Hp) in Hrun.
      discriminate Hrun. }
  rewrite (run_handle_402 o self response url info Hs Hp) in Hrun.
  pose proof (check_balance_events o [] self info) as Htb.
  destruct (run o [] (_check_balance self (token info))) as [tb [b|e]];
    simpl in Htb; subst tb; [|discriminate Hrun].
  destruct (int (amount info)) as [r|e]; [|discriminate Hrun].
  destruct (Z.ltb b r).
  - destruct (swap_tokens_events o [balance_query self info] self info r)
      as [rest (Hev & _ & _ & _ & Hpay & Hswap & _)].
    destruct (run o [balance_query self info]
                (_swap_tokens self SOL_MINT (token info) r)) as [ts [[|]|e]];
      try discriminate Hrun.
    simpl in Hev. subst ts.
    apply (f_equal fst) in Hrun. cbn [fst] in Hrun. subst t.
    change ([balance_query self info] ++
              (quote_request info r :: rest) ++ payment_events info url)
      with ([balance_query self info; quote_request info r] ++
              rest ++ payment_events info url).
    rewrite !count_app, Hpay.
    split; [|reflexivity].
    change (count is_swap_submission [balance_query self info; quote_request info r])
      with 0%nat.
    change (count is_swap_submission (payment_events info url)) with 0%nat.
    lia.
  - apply (f_equal fst) in Hrun. cbn [fst] in Hrun. subst t.
    split; [|reflexivity].
    change (count is_swap_submission
              ([balance_query self info] ++ payment_events info url)) with 0%nat.
    lia.
Qed.

Lemma success_submits_payment_once_witness :
  let t := trace_of (world (balance_is "500000") (quote_is "1000000"))
             (handle_402_response wallet response_402 api_url) in
  (count is_swap_submission t <= 1)%nat /\
  count is_payment_submission t = 1%nat.
Proof.
  apply (success_submits_payment_once
           (world (balance_is "500000") (quote_is "1000000"))
           wallet response_402 api_url _
           (ok_response (JObj {[ "data" := JStr "paid" ]}))).
  - reflexivity.
  - vm_compute. reflexivity.
Defined.

End HandlerSpec.

(** ** [int] after [str] *)

Module ConvFacts.
Import Py Numeral.
Local Open Scope list_scope.

Lemma digits_numeral (d a : Decimal.uint) :
  digits (Z.of_N (DecimalPos.Unsigned.of_lu a)) true (numeral d)
  = Some (Z.of_N (DecimalPos.Unsigned.of_lu (Decimal.revapp d a))).
Proof.
  revert a. unfold numeral.
  induction d as [|d IH|d IH|d IH|d IH|d IH|d IH|d IH|d IH|d IH|d IH];
    intros a; [reflexivity|..];
    cbn [DecimalString.NilEmpty.string_of_uint list_ascii_of_string digits];
    cbn [Decimal.revapp]; rewrite <- IH;
    (change (Ascii.eqb _ "_") with false); cbv iota;
    match goal with
    | |- context [ digit_val ?c ] =>
        let v := eval vm_compute in (digit_val c) in change (digit_val c) with v
    end;
    cbv iota; f_equal; cbn [DecimalPos.Unsigned.of_lu]; lia.
Qed.

Lemma digits_numeral_top (d : Decimal.uint) :
  d <> Decimal.Nil ->
  digits 0 false (numeral d) = Some (Z.of_uint d).
Proof.
  intros Hd. unfold Z.of_uint. rewrite DecimalPos.Unsigned.of_uint_alt.
  unfold Decimal.rev, numeral.
  destruct d; [done|..];
    cbn [DecimalString.NilEmpty.string_of_uint list_ascii_of_string digits Decimal.revapp];
    rewrite <- digits_numeral; reflexivity.
Qed.

Lemma numeral_no_space (d : Decimal.uint) :
  Forall (fun c => is_space c = false) (numeral d).
Proof.
  unfold numeral. induction d; simpl; constructor; auto.
Qed.

Lemma lstrip_no_space (l : list ascii) :
  Forall (fun c => is_space c = false) l -> lstrip l = l.
Proof. intros [|c r Hc _]; simpl; [done|by rewrite Hc]. Qed.

Lemma strip_no_space (l : list ascii) :
  Forall (fun c => is_space c = false) l -> strip l = l.
Proof.
  intros H. unfold strip. rewrite (lstrip_no_space l H).
  rewrite lstrip_no_space; [apply rev_involutive|].
  by apply Forall_rev.
Qed.

Lemma numeral_all_digits (d : Decimal.uint) :
  List.filter is_digit (numeral d) = numeral d.
Proof.
  unfold numeral. induction d; simpl; [done|..]; by rewrite IHd.
Qed.

Lemma numeral_ascii (d : Decimal.uint) :
  forallb (fun c => (N_of_ascii c <? 128)%N) (numeral d) = true.
Proof. unfold numeral. induction d; simpl; auto. Qed.

Lemma length_chars (s : string) :
  length (list_ascii_of_string s) = String.length s.
Proof. induction s; simpl; auto. Qed.

(** A numeral within the limit is read as the number it denotes. *)
Lemma limited_digits_numeral (d : Decimal.uint) :
  d <> Decimal.Nil ->
  Z.of_nat (length (numeral d)) <= MAX_STR_DIGITS ->
  limited_digits (numeral d) = Some (Z.of_uint d).
Proof.
  intros Hd Hlen. unfold limited_digits.
  rewrite numeral_all_digits.
  apply Z.ltb_ge in Hlen. rewrite Hlen.
  by apply digits_numeral_top.
Qed.

(** The characters of [str z]. *)
Lemma str_chars (z : Z) :
  list_ascii_of_string (str z) =
    match z with
    | 0 => ["0"%char]
    | Z.pos p => numeral (Pos.to_uint p)
    | Z.neg p => "-"%char :: numeral (Pos.to_uint p)
    end.
Proof.
  unfold str, numeral. destruct z as [|p|p]; [reflexivity|..]; simpl;
    pose proof (DecimalPos.Unsigned.to_uint_nonnil p);
    unfold DecimalString.NilZero.string_of_uint;
    by destruct (Pos.to_uint p).
Qed.

Lemma numeral_head (d : Decimal.uint) :
  d <> Decimal.Nil ->
  exists c r, numeral d = c :: r /\
    Ascii.eqb c "+" = false /\ Ascii.eqb c "-" = false.
Proof.
  intros Hd. unfold numeral. destruct d; [done|..]; simpl; by eexists _, _.
Qed.

Lemma int_of_string_str (z : Z) :
  decimal_digits z <= MAX_STR_DIGITS ->
  int_of_string (str z) = Some z.
Proof.
  intros Hlim. unfold decimal_digits in Hlim.
  rewrite <- length_chars, str_chars in Hlim.
  pose proof (DecimalZ.of_to z) as Hz.
  unfold int_of_string. rewrite str_chars.
  destruct z as [|p|p]; [reflexivity|..]; simpl Z.abs in Hlim;
    simpl Z.to_int in Hz; simpl Z.of_int in Hz;
    pose proof (DecimalPos.Unsigned.to_uint_nonnil p) as Hnil;
    pose proof (limited_digits_numeral _ Hnil Hlim) as Hdig;
    pose proof (numeral_no_space (Pos.to_uint p)) as Hsp;
    pose proof (numeral_ascii (Pos.to_uint p)) as Hasc.
  - unfold int_chars. rewrite Hasc, (strip_no_space _ Hsp).
    destruct (numeral_head _ Hnil) as (c & r & Hcr & Hplus & Hminus).
    rewrite Hcr in Hdig |- *. rewrite Hplus, Hminus, Hdig. by rewrite Hz.
  - unfold int_chars. cbn [forallb]. rewrite Hasc.
    change ((N_of_ascii "-" <? 128)%N && true) with true. cbv iota.
    rewrite strip_no_space by (constructor; [reflexivity|exact Hsp]).
    change (Ascii.eqb "-" "+") with false. change (Ascii.eqb "-" "-") with true.
    cbv iota. rewrite Hdig. simpl. f_equal. lia.
Qed.

End ConvFacts.

(** ** Runs from a later history, and the kinds of event of a run *)

Module ExtraFacts.
Import Py Ext Handler Observe RunFacts FlowFacts Program Itinerary.
Local Open Scope list_scope.

(** Two oracles that agree after their histories give the same run. *)
Lemma run_ext {A} (o1 o2 : oracle) (p : prog A) (h1 h2 : list event) :
  (forall h c, o1 (h1 ++ h) c = o2 (h2 ++ h) c) ->
  run o1 h1 p = run o2 h2 p.
Proof.
  revert h1 h2. induction p as [a|e|c k IH|s k IH]; intros h1 h2 Hext; simpl.
  - done.
  - done.
  - pose proof (Hext [] c) as H0. rewrite !app_nil_r in H0. rewrite H0.
    destruct (o2 h2 c) as [v|e]; [|done].
    rewrite (IH v (h1 ++ [ECall c]) (h2 ++ [ECall c])); [done|].
    intros h c'. rewrite <- !app_assoc. apply Hext.
  - rewrite (IH (h1 ++ [EStep s]) (h2 ++ [EStep s])); [done|].
    intros h c'. rewrite <- !app_assoc. apply Hext.
Qed.

Lemma run_after {A} (o : oracle) (hist : list event) (p : prog A) :
  run o hist p = run (after o hist) [] p.
Proof. apply run_ext. intros h c. unfold after. by rewrite app_nil_l. Qed.

Ltac kinds_facts :=
  repeat split; intros; simpl in *;
  try done; try congruence; try (by eexists).

(** The kinds of an exchange are an initial part of [swap_itinerary]: all
    of it when the exchange completes, the quote alone when it is
    refused. *)
Lemma swap_kinds (o : oracle) hist self (output_token : json) (r : Z) :
  kinds (fst (run o hist (_swap_tokens self SOL_MINT output_token r)))
    `prefix_of` swap_itinerary /\
  (snd (run o hist (_swap_tokens self SOL_MINT output_token r)) = Ok true ->
   kinds (fst (run o hist (_swap_tokens self SOL_MINT output_token r)))
     = swap_itinerary) /\
  (snd (run o hist (_swap_tokens self SOL_MINT output_token r)) = Ok false ->
   kinds (fst (run o hist (_swap_tokens self SOL_MINT output_token r)))
     = [KQuote]).
Proof.
  unfold _swap_tokens.
  rewrite run_bind. run_call.
  destruct (o hist _) as [qresp|e]; [|by kinds_facts].
  rewrite run_bind, run_lift.
  destruct (json_body qresp) as [quote|e]; [|by kinds_facts].
  rewrite run_bind, run_lift.
  destruct (py_get quote "output_amount") as [oa|e]; [|by kinds_facts].
  destruct (truthy oa); simpl negb; cbv iota; [|by kinds_facts].
  repeat first
    [ run_step
    | match goal with
      | |- context [ match ?x with Ok _ => _ | Err _ => _ end ] =>
          destruct x eqn:?; simpl
      end ];
    by kinds_facts.
Qed.

(** The two ways a run of the handler on a 402 response with a parsed
    requirement can go: it ends in an exception after the balance query
    and an initial part of an exchange, or it goes through payment and
    ends with the retried request, whose outcome is the run's. *)
Lemma handle_402_cases (o : oracle) self response url (info : PaymentInfo) :
  status_code response = 402 ->
  _parse_402_response response = Ok info ->
  (exists e mid,
      run o [] (handle_402_response self response url)
        = (balance_query self info :: mid, Err e) /\
      kinds mid `prefix_of` swap_itinerary) \/
  (exists mid,
      let before := balance_query self info :: mid ++
                      [EStep (CreatePaymentTransaction info);
                       EStep (SendTransaction JNull)] in
      run o [] (handle_402_response self response url)
        = (before ++ [ECall (retried_request info url)],
           o before (retried_request info url)) /\
      (mid = [] \/ kinds mid = swap_itinerary)).
Proof.
  intros Hs Hp. rewrite (run_handle_402 o self response url info Hs Hp).
  pose proof (check_balance_events o [] self info) as Htb.
  destruct (run o [] (_check_balance self (token info))) as [tb [b|e]];
    simpl in Htb; subst tb.
  2:{ left. exists e, []. split; [done|apply prefix_nil]. }
  destruct (int (amount info)) as [r|e].
  2:{ left. exists e, []. split; [done|apply prefix_nil]. }
  destruct (Z.ltb b r).
  - destruct (swap_kinds o [balance_query self info] self (token info) r)
      as (Hpre & Htrue & Hfalse).
    destruct (run o [balance_query self info]
                (_swap_tokens self SOL_MINT (token info) r)) as [ts [[|]|e]];
      simpl in Hpre, Htrue, Hfalse.
    + right. exists ts. split; [|right; auto].
      simpl. rewrite <- !app_assoc. reflexivity.
    + left. by exists (PyException "Failed to swap tokens"), ts.
    + left. by exists e, ts.
  - right. exists []. split; [reflexivity|by left].
Qed.

Lemma kinds_app (t1 t2 : list event) : kinds (t1 ++ t2) = kinds t1 ++ kinds t2.
Proof. apply map_app. Qed.

Lemma swap_itinerary_unpaid (ks : list kind) :
  ks `prefix_of` swap_itinerary ->
  (KPaySubmit ∉ ks) /\ (KPayBuild ∉ ks) /\ (KRetry ∉ ks).
Proof.
  intros Hpre.
  repeat split; intros Hin; apply (elem_of_prefix _ _ _ Hin) in Hpre;
    revert Hpre; unfold swap_itinerary; rewrite !elem_of_cons, elem_of_nil;
    intros H; repeat destruct H as [H|H]; done.
Qed.

(** The kinds of a run of the handler: an initial part of one of the two
    itineraries, and the whole of one when a 402 response is answered. *)
Lemma handle_kinds (o : oracle) self (response : Response) (url : string) :
  (kinds (fst (run o [] (handle_402_response self response url)))
     `prefix_of` direct_itinerary \/
   kinds (fst (run o [] (handle_402_response self response url)))
     `prefix_of` exchange_itinerary) /\
  (status_code response = 402 ->
   forall paid, snd (run o [] (handle_402_response self response url)) = Ok paid ->
     kinds (fst (run o [] (handle_402_response self response url))) = direct_itinerary \/
     kinds (fst (run o [] (handle_402_response self response url))) = exchange_itinerary).
Proof.
  destruct (Z.eq_dec (status_code response) 402) as [Hs|Hs].
  2:{ destruct (run_handle_other_status o self response url Hs) as [-> _].
      split; [left; apply prefix_nil|done]. }
  destruct (_parse_402_response response) as [info|e] eqn:Hp.
  2:{ rewrite (run_handle_402_unparsed o self response url e Hs Hp). simpl.
      split; [left; apply prefix_nil|]. discriminate. }
  destruct (handle_402_cases o self response url info Hs Hp)
    as [(e & mid & -> & Hmid)|(mid & -> & Hmid)]; cbn [fst snd].
  - split; [|discriminate]. right.
    apply (prefix_cons KBalance), prefix_app_r, Hmid.
  - assert (Hk : kinds ((balance_query self info :: mid ++
                   [EStep (CreatePaymentTransaction info);
                    EStep (SendTransaction JNull)]) ++
                   [ECall (retried_request info url)])
                 = KBalance :: kinds mid ++ payment_itinerary).
    { simpl. rewrite !kinds_app, <- app_assoc. reflexivity. }
    rewrite Hk.
    destruct Hmid as [-> | Hmid]; [|rewrite Hmid]; split; auto.
Qed.

End ExtraFacts.

(** ** Further properties of the script *)

Module ScriptSpec.
Import Py Ext Handler Observe Scenario RunFacts ParseFacts FlowFacts.
Import Program Itinerary Worlds Numeral ConvFacts ExtraFacts.
Local Open Scope list_scope.

(** *** Parsing *)

(** X1: parsing succeeds only on a body that is an object whose [accepts]
    is a list with a Solana option that has a token and an amount, all
    entries before it being objects of other schemes; the result is read
    off that option. *)
Theorem parse_success_inversion (response : Response) (info : PaymentInfo) :
  _parse_402_response response = Ok info ->
  exists (d : gmap string json) (pre post : list json) (m : gmap string json),
    json_body response = Ok (JObj d) /\
    dict_get_default d "accepts" (JArr []) = JArr (pre ++ JObj m :: post) /\
    Forall (fun e => is_object e = true /\ is_solana_option e = false) pre /\
    is_solana_option (JObj m) = true /\
    m !! "token" = Some (token info) /\
    m !! "amount" = Some (amount info) /\
    network info = dict_get_default m "network" (JStr "mainnet").
Proof.
  unfold _parse_402_response. intros H.
  destruct (json_body response) as [body|e]; [|discriminate H]. simpl in H.
  destruct body as [| | | | | |d]; try discriminate H. simpl in H.
  exists d.
  assert (Hitems : forall items, find_solana_option items = Ok info ->
    exists pre post m, items = pre ++ JObj m :: post /\
      Forall (fun e => is_object e = true /\ is_solana_option e = false) pre /\
      is_solana_option (JObj m) = true /\
      m !! "token" = Some (token info) /\ m !! "amount" = Some (amount info) /\
      network info = dict_get_default m "network" (JStr "mainnet")).
  { induction items as [|v items IH]; [discriminate|]. simpl.
    destruct v as [| | | | | |m]; try discriminate. simpl.
    destruct (eq_str (dict_get m "scheme") "solana") eqn:Hsol.
    - unfold dict_getitem.
      destruct (m !! "token") as [t|] eqn:Ht; [|discriminate]. simpl.
      destruct (m !! "amount") as [a|] eqn:Ha; [|discriminate]. simpl.
      intros [= <-]. exists [], items, m. simpl. repeat split; auto.
    - intros Hrest. destruct (IH Hrest) as (pre & post & m' & -> & Hpre & Hrest').
      exists (JObj m :: pre), post, m'. split; [done|]. split; [|done].
      constructor; [|done]. by split. }
  destruct (dict_get_default d "accepts" (JArr [])) as [| | | |s|l|k] eqn:Hacc;
    try discriminate H; simpl in H.
  - (* a string: its characters have no [get] *)
    destruct (list_ascii_of_string s); simpl in H; discriminate H.
  - destruct (Hitems l H) as (pre & post & m & -> & Hrest).
    by exists pre, post, m.
  - destruct (map_to_list k) as [|[key v] rest]; simpl in H; discriminate H.
Qed.

Lemma parse_success_inversion_witness :
  exists (d : gmap string json) (pre post : list json) (m : gmap string json),
    json_body response_402 = Ok (JObj d) /\
    dict_get_default d "accepts" (JArr []) = JArr (pre ++ JObj m :: post) /\
    Forall (fun e => is_object e = true /\ is_solana_option e = false) pre /\
    is_solana_option (JObj m) = true /\
    m !! "token" = Some (token info_402) /\
    m !! "amount" = Some (amount info_402) /\
    network info_402 = dict_get_default m "network" (JStr "mainnet").
Proof.
  apply (parse_success_inversion response_402 info_402). vm_compute. reflexivity.
Defined.

(** X2: the first Solana option decides alone.  When it has no ["token"]
    parsing raises [KeyError('token')], when it has a token but no
    ["amount"], [KeyError('amount')]; options later in the list are not
    tried. *)
Theorem first_option_incomplete_is_key_error (response : Response)
    (d : gmap string json) (pre post : list json) (m : gmap string json) :
  json_body response = Ok (JObj d) ->
  dict_get_default d "accepts" (JArr []) = JArr (pre ++ JObj m :: post) ->
  Forall (fun e => is_object e = true /\ is_solana_option e = false) pre ->
  is_solana_option (JObj m) = true ->
  (m !! "token" = None ->
   _parse_402_response response = Err (KeyError "token")) /\
  (is_Some (m !! "token") -> m !! "amount" = None ->
   _parse_402_response response = Err (KeyError "amount")).
Proof.
  intros Hb Ha Hpre Hm.
  rewrite (parse_of_accepts _ _ _ Hb Ha).
  rewrite (find_solana_option_first pre post m Hpre Hm).
  unfold dict_getitem. split.
  - intros ->. reflexivity.
  - intros [t ->] ->. reflexivity.
Qed.

Lemma first_option_incomplete_is_key_error_witness :
  (option_no_token !! "token" = None ->
   _parse_402_response (response_with [JObj option_no_token; JObj option_sol_a])
     = Err (KeyError "token")) /\
  (is_Some (option_no_token !! "token") -> option_no_token !! "amount" = None ->
   _parse_402_response (response_with [JObj option_no_token; JObj option_sol_a])
     = Err (KeyError "amount")).
Proof.
  apply (first_option_incomplete_is_key_error _
           (accepts_map [JObj option_no_token; JObj option_sol_a])
           [] [JObj option_sol_a] option_no_token).
  - reflexivity.
  - vm_compute. reflexivity.
  - constructor.
  - vm_compute. reflexivity.
Defined.

(** X3: an entry that is not an object stops the search with
    [AttributeError] when no Solana option precedes it, even if a complete
    Solana option follows. *)
Theorem non_object_entry_stops_parsing (response : Response)
    (d : gmap string json) (pre post : list json) (v : json) :
  json_body response = Ok (JObj d) ->
  dict_get_default d "accepts" (JArr []) = JArr (pre ++ v :: post) ->
  Forall (fun e => is_object e = true /\ is_solana_option e = false) pre ->
  is_object v = false ->
  _parse_402_response response = Err (AttributeError "get").
Proof.
  intros Hb Ha Hpre Hv.
  rewrite (parse_of_accepts _ _ _ Hb Ha). clear Ha.
  induction Hpre as [|e pre [Hobj Hno] _ IH]; simpl.
  - destruct v; try reflexivity. discriminate Hv.
  - destruct e; try discriminate Hobj. simpl in *. by rewrite Hno.
Qed.

Lemma non_object_entry_stops_parsing_witness :
  _parse_402_response (response_with [JObj option_eth; JStr "solana"; JObj option_sol_a])
    = Err (AttributeError "get").
Proof.
  apply (non_object_entry_stops_parsing _
           (accepts_map [JObj option_eth; JStr "solana"; JObj option_sol_a])
           [JObj option_eth] [JObj option_sol_a] (JStr "solana")).
  - reflexivity.
  - vm_compute. reflexivity.
  - repeat constructor.
  - reflexivity.
Defined.

(** X4: a 402 response whose body cannot be used fails before any call:
    when [.json()] raises, that error; when the body is not an object,
    [AttributeError]; when [accepts] is null, a boolean or a number,
    [TypeError]. *)
Theorem unusable_body_fails_without_calls (o : oracle) self (response : Response)
    (url : string) :
  status_code response = 402 ->
  (forall e, json_body response = Err e ->
     run o [] (handle_402_response self response url) = ([], Err e)) /\
  (forall v, json_body response = Ok v -> is_object v = false ->
     run o [] (handle_402_response self response url)
       = ([], Err (AttributeError "get"))) /\
  (forall d a, json_body response = Ok (JObj d) -> d !! "accepts" = Some a ->
     (a = JNull \/ (exists b, a = JBool b) \/ (exists z, a = JInt z) \/
      (exists f, a = JFloat f)) ->
     run o [] (handle_402_response self response url) = ([], Err TypeError)).
Proof.
  intros Hs. repeat split.
  - intros e He. apply (run_handle_402_unparsed o self response url e Hs).
    unfold _parse_402_response. by rewrite He.
  - intros v Hv Hobj. apply (run_handle_402_unparsed o self response url _ Hs).
    unfold _parse_402_response. rewrite Hv. by destruct v.
  - intros d a Hd Ha Hkind.
    apply (run_handle_402_unparsed o self response url _ Hs).
    unfold _parse_402_response. rewrite Hd. simpl.
    unfold dict_get_default. rewrite Ha. simpl.
    destruct Hkind as [->|[[b ->]|[[z ->]|[f ->]]]]; reflexivity.
Qed.

Lemma unusable_body_fails_without_calls_witness :
  let o := world (balance_is "5") (quote_is "5") in
  let response := response_of_body (Ok (JArr [])) in
  (forall e, json_body response = Err e ->
     run o [] (handle_402_response wallet response api_url) = ([], Err e)) /\
  (forall v, json_body response = Ok v -> is_object v = false ->
     run o [] (handle_402_response wallet response api_url)
       = ([], Err (AttributeError "get"))) /\
  (forall d a, json_body response = Ok (JObj d) -> d !! "accepts" = Some a ->
     (a = JNull \/ (exists b, a = JBool b) \/ (exists z, a = JInt z) \/
      (exists f, a = JFloat f)) ->
     run o [] (handle_402_response wallet response api_url) = ([], Err TypeError)).
Proof.
  apply (unusable_body_fails_without_calls _ wallet
           (response_of_body (Ok (JArr []))) api_url).
  reflexivity.
Defined.

(** *** The balance check *)

(** X5: the balance check returns the integer the service reports, whether
    the ["balance"] field is a JSON number or the decimal numeral of the
    number as a string (of no more digits than [int] accepts), and makes
    one call. *)
Theorem balance_read_from_number_or_numeral (o : oracle) hist self
    (token_address : json) (bresp : Response) (d : gmap string json) (n : Z) :
  o hist (RequestsGet balance_url (Some (balance_params self token_address)) None)
    = Ok bresp ->
  json_body bresp = Ok (JObj d) ->
  d !! "balance" = Some (JInt n) \/
  (d !! "balance" = Some (JStr (str n)) /\ decimal_digits n <= MAX_STR_DIGITS) ->
  run o hist (_check_balance self token_address) =
    ([ECall (RequestsGet balance_url (Some (balance_params self token_address)) None)],
     Ok n).
Proof.
  intros Ho Hj Hd. unfold _check_balance.
  rewrite run_bind. run_call. rewrite Ho.
  rewrite run_bind, run_lift, Hj. rewrite run_bind, run_lift.
  cbn [py_get_default]. unfold dict_get_default.
  destruct Hd as [-> | [-> Hlim]]; cbn [default]; rewrite run_lift; simpl.
  - reflexivity.
  - by rewrite (int_of_string_str n Hlim).
Qed.

Lemma balance_read_from_number_or_numeral_witness :
  run (world (balance_is "500000") (quote_is "1")) []
      (_check_balance wallet (JStr "TOKEN_MINT")) =
    ([ECall (RequestsGet balance_url
               (Some (balance_params wallet (JStr "TOKEN_MINT"))) None)],
     Ok 500000).
Proof.
  apply (balance_read_from_number_or_numeral _ [] wallet (JStr "TOKEN_MINT")
           (ok_response (balance_is "500000")) {[ "balance" := JStr "500000" ]} 500000).
  - vm_compute. reflexivity.
  - reflexivity.
  - right. split; [vm_compute; reflexivity | vm_compute; discriminate].
Defined.

(** X6: how the balance check fails, always after its one call: with the
    error of the request or of [.json()]; with [AttributeError] when the
    body is not an object; with [TypeError] when ["balance"] is null
    (unlike a missing field, which counts as 0). *)
Theorem balance_check_errors (o : oracle) hist self (token_address : json) :
  let q := RequestsGet balance_url (Some (balance_params self token_address)) None in
  (forall e, o hist q = Err e ->
     run o hist (_check_balance self token_address) = ([ECall q], Err e)) /\
  (forall bresp e, o hist q = Ok bresp -> json_body bresp = Err e ->
     run o hist (_check_balance self token_address) = ([ECall q], Err e)) /\
  (forall bresp v, o hist q = Ok bresp -> json_body bresp = Ok v ->
     is_object v = false ->
     run o hist (_check_balance self token_address)
       = ([ECall q], Err (AttributeError "get"))) /\
  (forall bresp d, o hist q = Ok bresp -> json_body bresp = Ok (JObj d) ->
     d !! "balance" = Some JNull ->
     run o hist (_check_balance self token_address) = ([ECall q], Err TypeError)).
Proof.
  intros q. subst q. unfold _check_balance. repeat split.
  - intros e He. rewrite run_bind. run_call. by rewrite He.
  - intros bresp e Ho Hj. rewrite run_bind. run_call. rewrite Ho.
    by rewrite run_bind, run_lift, Hj.
  - intros bresp v Ho Hj Hv. rewrite run_bind. run_call. rewrite Ho.
    rewrite run_bind, run_lift, Hj. rewrite run_bind, run_lift.
    by destruct v.
  - intros bresp d Ho Hj Hd. rewrite run_bind. run_call. rewrite Ho.
    rewrite run_bind, run_lift, Hj. rewrite run_bind, run_lift.
    cbn [py_get_default]. unfold dict_get_default. rewrite Hd.
    cbn [default]. by rewrite run_lift.
Qed.

(** *** The handler *)

(** X7: when the balance check fails the handler raises the same error
    right after the balance query: no quote, no swap, no payment, no
    retry. *)
Theorem balance_failure_stops_handler (o : oracle) self response url
    (info : PaymentInfo) (e : exc) :
  status_code response = 402 ->
  _parse_402_response response = Ok info ->
  snd (run o [] (_check_balance self (token info))) = Err e ->
  run o [] (handle_402_response self response url) =
    ([balance_query self info], Err e).
Proof.
  intros Hs Hp He.
  rewrite (run_handle_402 o self response url info Hs Hp).
  pose proof (check_balance_events o [] self info) as Htb.
  destruct (run o [] (_check_balance self (token info))) as [tb r].
  simpl in *. by subst.
Qed.

Lemma balance_failure_stops_handler_witness :
  run (failing_at 0 (world (balance_is "5") (quote_is "5"))) []
      (handle_402_response wallet response_402 api_url) =
    ([balance_query wallet info_402], Err (ExternalError "unreachable")).
Proof.
  apply (balance_failure_stops_handler _ wallet response_402 api_url info_402).
  - reflexivity.
  - vm_compute. reflexivity.
  - vm_compute. reflexivity.
Defined.

(** X8: the required amount is converted only after the balance query.
    When [int] rejects it the handler raises that error with the balance
    query already made, and nothing else. *)
Theorem amount_rejected_after_balance_query (o : oracle) self response url
    (info : PaymentInfo) (tb : list event) (b : Z) (e : exc) :
  status_code response = 402 ->
  _parse_402_response response = Ok info ->
  run o [] (_check_balance self (token info)) = (tb, Ok b) ->
  int (amount info) = Err e ->
  run o [] (handle_402_response self response url) =
    ([balance_query self info], Err e).
Proof.
  intros Hs Hp Hb He.
  rewrite (run_handle_402 o self response url info Hs Hp).
  pose proof (check_balance_events o [] self info) as Htb.
  rewrite Hb in Htb |- *. simpl in Htb. subst tb. by rewrite He.
Qed.

Lemma amount_rejected_after_balance_query_witness :
  run (world (balance_is "5") (quote_is "5")) []
      (handle_402_response wallet (response_asking (JStr "1.5 USDC")) api_url) =
    ([balance_query wallet (info_asking (JStr "1.5 USDC"))], Err ValueError).
Proof.
  apply (amount_rejected_after_balance_query _ wallet _ api_url
           (info_asking (JStr "1.5 USDC"))
           [balance_query wallet (info_asking (JStr "1.5 USDC"))] 5).
  - reflexivity.
  - vm_compute. reflexivity.
  - vm_compute. reflexivity.
  - vm_compute. reflexivity.
Defined.

(** X9: the kinds of event of any run of the handler, on any response and
    in any world, form an initial part of one of two itineraries: balance
    query, payment construction, payment submission, retry; or the same
    with the seven calls of an exchange after the balance query.  No kind
    of event occurs twice, and a run on a 402 response that returns has
    gone through one of the two to its end. *)
Theorem handler_follows_itinerary (o : oracle) self (response : Response)
    (url : string) :
  let t := trace_of o (handle_402_response self response url) in
  (kinds t `prefix_of` direct_itinerary \/ kinds t `prefix_of` exchange_itinerary) /\
  NoDup (kinds t) /\
  (status_code response = 402 ->
   forall paid, outcome_of o (handle_402_response self response url) = Ok paid ->
     kinds t = direct_itinerary \/ kinds t = exchange_itinerary).
Proof.
  intros t. subst t. unfold trace_of, outcome_of.
  destruct (handle_kinds o self response url) as [Hpre Hdone].
  split; [done|]. split; [|done].
  assert (Hd : NoDup direct_itinerary) by compute_done.
  assert (He : NoDup exchange_itinerary) by compute_done.
  destruct Hpre as [[k Hk]|[k Hk]].
  - rewrite Hk in Hd. by apply NoDup_app in Hd as [? _].
  - rewrite Hk in He. by apply NoDup_app in He as [? _].
Qed.

(** X10: what the handler returns for a 402 response is the answer to the
    retried request, which is the last event of the run; the answer is
    returned as it is, whatever its status, with no further event. *)
Theorem returned_response_is_retry_answer (o : oracle) self response url
    (t : list event) (paid : Response) :
  status_code response = 402 ->
  run o [] (handle_402_response self response url) = (t, Ok paid) ->
  exists (info : PaymentInfo) (before : list event),
    _parse_402_response response = Ok info /\
    t = before ++ [ECall (retried_request info url)] /\
    o before (retried_request info url) = Ok paid.
Proof.
  intros Hs Hrun.
  destruct (_parse_402_response response) as [info|e] eqn:Hp.
  2:{ rewrite (run_handle_402_unparsed o self response url e Hs Hp) in Hrun.
      discriminate Hrun. }
  destruct (handle_402_cases o self response url info Hs Hp)
    as [(e & mid & Hr & _)|(mid & Hr & _)]; rewrite Hr in Hrun.
  - discriminate Hrun.
  - injection Hrun as Ht Ho.
    exists info, (balance_query self info :: mid ++
                    [EStep (CreatePaymentTransaction info);
                     EStep (SendTransaction JNull)]).
    split; [done|]. split; [by rewrite <- Ht | exact Ho].
Qed.

Lemma returned_response_is_retry_answer_witness :
  exists (info : PaymentInfo) (before : list event),
    _parse_402_response response_402 = Ok info /\
    balance_query wallet info_402 :: payment_events info_402 api_url
      = before ++ [ECall (retried_request info api_url)] /\
    world_retry response_402 (balance_is "2000000") (quote_is "1") before
      (retried_request info api_url) = Ok response_402.
Proof.
  apply (returned_response_is_retry_answer
           (world_retry response_402 (balance_is "2000000") (quote_is "1"))
           wallet response_402 api_url).
  - reflexivity.
  - vm_compute. reflexivity.
Defined.

(** X11: when the handler raises on a 402 response after the payment was
    submitted, the exception is the retried request's own: payment
    construction and submission cannot fail, and the payment is not
    undone. *)
Theorem failure_after_payment_is_retry_failure (o : oracle) self response url
    (t : list event) (e : exc) :
  status_code response = 402 ->
  run o [] (handle_402_response self response url) = (t, Err e) ->
  KPaySubmit ∈ kinds t ->
  exists (info : PaymentInfo) (before : list event),
    _parse_402_response response = Ok info /\
    t = before ++ [ECall (retried_request info url)] /\
    o before (retried_request info url) = Err e.
Proof.
  intros Hs Hrun Hpaid.
  destruct (_parse_402_response response) as [info|e'] eqn:Hp.
  2:{ rewrite (run_handle_402_unparsed o self response url e' Hs Hp) in Hrun.
      injection Hrun as <- _. by apply elem_of_nil in Hpaid. }
  destruct (handle_402_cases o self response url info Hs Hp)
    as [(e' & mid & Hr & Hmid)|(mid & Hr & _)]; rewrite Hr in Hrun.
  - injection Hrun as <- _.
    destruct (swap_itinerary_unpaid _ Hmid) as [Hno _].
    simpl in Hpaid. apply elem_of_cons in Hpaid as [Hb|Hin]; [|done].
    revert Hb. unfold balance_query. simpl. discriminate.
  - injection Hrun as Ht Ho.
    exists info, (balance_query self info :: mid ++
                    [EStep (CreatePaymentTransaction info);
                     EStep (SendTransaction JNull)]).
    split; [done|]. split; [by rewrite <- Ht | exact Ho].
Qed.

Lemma failure_after_payment_is_retry_failure_witness :
  exists (info : PaymentInfo) (before : list event),
    _parse_402_response response_402 = Ok info /\
    balance_query wallet info_402 :: payment_events info_402 api_url
      = before ++ [ECall (retried_request info api_url)] /\
    failing_at 3 (world (balance_is "2000000") (quote_is "1")) before
      (retried_request info api_url) = Err (ExternalError "unreachable").
Proof.
  apply (failure_after_payment_is_retry_failure
           (failing_at 3 (world (balance_is "2000000") (quote_is "1")))
           wallet response_402 api_url).
  - reflexivity.
  - vm_compute. reflexivity.
  - compute_done.
Defined.

(** X12: when the balance is short and the exchange does not complete
    (it raises, or the quote has no output amount), the handler raises:
    no payment is constructed or submitted and the request is not
    retried, although the swap may already have been submitted. *)
Theorem no_payment_after_failed_exchange (o : oracle) self response url
    (info : PaymentInfo) (tb : list event) (b r : Z) :
  status_code response = 402 ->
  _parse_402_response response = Ok info ->
  run o [] (_check_balance self (token info)) = (tb, Ok b) ->
  int (amount info) = Ok r ->
  b < r ->
  snd (run o [balance_query self info] (_swap_tokens self SOL_MINT (token info) r))
    <> Ok true ->
  let t := trace_of o (handle_402_response self response url) in
  (exists e, outcome_of o (handle_402_response self response url) = Err e) /\
  (KPayBuild ∉ kinds t) /\ (KPaySubmit ∉ kinds t) /\ (KRetry ∉ kinds t).
Proof.
  intros Hs Hp Hb Hr Hlt Hswap t. subst t. unfold trace_of, outcome_of.
  rewrite (run_handle_402 o self response url info Hs Hp).
  pose proof (check_balance_events o [] self info) as Htb.
  rewrite Hb in Htb |- *. simpl in Htb. subst tb.
  rewrite Hr. apply Z.ltb_lt in Hlt. rewrite Hlt.
  destruct (swap_kinds o [balance_query self info] self (token info) r)
    as (Hpre & _ & _).
  destruct (swap_itinerary_unpaid _ Hpre) as (H1 & H2 & H3).
  assert (Hno : forall k, k <> KBalance ->
    k ∉ kinds (fst (run o [balance_query self info]
                      (_swap_tokens self SOL_MINT (token info) r))) ->
    k ∉ kinds ([balance_query self info] ++
               fst (run o [balance_query self info]
                      (_swap_tokens self SOL_MINT (token info) r)))).
  { intros k Hk Hin. simpl. rewrite elem_of_cons. intros [Heq|Hin']; [|done].
    apply Hk. rewrite Heq. reflexivity. }
  destruct (run o [balance_query self info]
              (_swap_tokens self SOL_MINT (token info) r)) as [ts [[|]|e]];
    cbn [fst snd] in *; [done| |]; (split; [by eexists|]);
    repeat split; by apply Hno.
Qed.

Lemma no_payment_after_failed_exchange_witness :
  let o := failing_at 7 (world (balance_is "500000") (quote_is "1000000")) in
  let t := trace_of o (handle_402_response wallet response_402 api_url) in
  (exists e, outcome_of o (handle_402_response wallet response_402 api_url) = Err e) /\
  (KPayBuild ∉ kinds t) /\ (KPaySubmit ∉ kinds t) /\ (KRetry ∉ kinds t).
Proof.
  apply (no_payment_after_failed_exchange
           (failing_at 7 (world (balance_is "500000") (quote_is "1000000")))
           wallet response_402 api_url info_402
           [balance_query wallet info_402] 500000 1000000).
  - reflexivity.
  - vm_compute. reflexivity.
  - vm_compute. reflexivity.
  - vm_compute. reflexivity.
  - lia.
  - vm_compute. discriminate.
Defined.

(** *** The exchange *)

(** X13: an exchange that completes made exactly seven calls, and each
    used what the one before returned: the decoded text is the
    ["transaction"] field of the swap service's answer, the bytes parsed
    are the decoded ones, the transaction submitted is the one that was
    signed with the wallet's key, and the signature confirmed is the one
    that submission returned. *)
Theorem completed_exchange_data_flow (o : oracle) hist self (output_token : json)
    (r : Z) (t : list event) :
  run o hist (_swap_tokens self SOL_MINT output_token r) = (t, Ok true) ->
  exists (sresp : Response) (swap_result tx_base64 : json) (tx_bytes : bytes)
         (unsigned signed : Transaction) (signature : Signature),
    t = swap_calls self output_token r tx_base64 tx_bytes unsigned signed signature /\
    o (hist ++ take 1 t)
      (RequestsPost swap_url (swap_data self SOL_MINT output_token r)) = Ok sresp /\
    json_body sresp = Ok swap_result /\
    py_getitem swap_result "transaction" = Ok tx_base64 /\
    o (hist ++ take 2 t) (B64Decode tx_base64) = Ok tx_bytes /\
    o (hist ++ take 3 t) (TransactionFromBytes tx_bytes) = Ok unsigned /\
    o (hist ++ take 4 t) (TransactionSign unsigned (keypair self)) = Ok signed /\
    o (hist ++ take 5 t) (ClientSendTransaction (ClientOf SOLANA_RPC) signed)
      = Ok signature /\
    o (hist ++ take 6 t) (ClientConfirmTransaction (ClientOf SOLANA_RPC) signature)
      = Ok tt.
Proof.
  unfold _swap_tokens.
  repeat first
    [ run_step
    | match goal with
      | |- context [ match ?x with Ok _ => _ | Err _ => _ end ] =>
          destruct x eqn:?
      | |- context [ negb ?b ] => destruct b eqn:?; simpl negb; cbv iota
      end ];
    try discriminate.
  simpl. intros [= <-].
  simpl in *. rewrite ?app_nil_r, <- ?app_assoc in *. simpl in *.
  repeat eexists; try eassumption.
  match goal with u : unit |- _ => by destruct u end.
Qed.

Lemma completed_exchange_data_flow_witness :
  let o := world (balance_is "500000") (quote_is "1000000") in
  let t := fst (run o [] (_swap_tokens wallet SOL_MINT (JStr "TOKEN_MINT") 1000000)) in
  exists (sresp : Response) (swap_result tx_base64 : json) (tx_bytes : bytes)
         (unsigned signed : Transaction) (signature : Signature),
    t = swap_calls wallet (JStr "TOKEN_MINT") 1000000
          tx_base64 tx_bytes unsigned signed signature /\
    o ([] ++ take 1 t)
      (RequestsPost swap_url (swap_data wallet SOL_MINT (JStr "TOKEN_MINT") 1000000))
      = Ok sresp /\
    json_body sresp = Ok swap_result /\
    py_getitem swap_result "transaction" = Ok tx_base64 /\
    o ([] ++ take 2 t) (B64Decode tx_base64) = Ok tx_bytes /\
    o ([] ++ take 3 t) (TransactionFromBytes tx_bytes) = Ok unsigned /\
    o ([] ++ take 4 t) (TransactionSign unsigned (keypair wallet)) = Ok signed /\
    o ([] ++ take 5 t) (ClientSendTransaction (ClientOf SOLANA_RPC) signed)
      = Ok signature /\
    o ([] ++ take 6 t) (ClientConfirmTransaction (ClientOf SOLANA_RPC) signature)
      = Ok tt.
Proof.
  apply (completed_exchange_data_flow
           (world (balance_is "500000") (quote_is "1000000")) []
           wallet (JStr "TOKEN_MINT") 1000000).
  vm_compute. reflexivity.
Defined.

(** X14: when the swap service's answer is an object without a
    ["transaction"] field, the exchange raises [KeyError('transaction')]
    after the quote request and the swap build; nothing is decoded, signed
    or submitted. *)
Theorem swap_answer_without_transaction (o : oracle) hist self (output_token : json)
    (r : Z) (qresp sresp : Response) (quote d : gmap string json) :
  let q := RequestsGet quote_url (Some (quote_params SOL_MINT output_token r)) None in
  let p := RequestsPost swap_url (swap_data self SOL_MINT output_token r) in
  o hist q = Ok qresp ->
  json_body qresp = Ok (JObj quote) ->
  truthy (dict_get quote "output_amount") = true ->
  o (hist ++ [ECall q]) p = Ok sresp ->
  json_body sresp = Ok (JObj d) ->
  d !! "transaction" = None ->
  run o hist (_swap_tokens self SOL_MINT output_token r) =
    ([ECall q; ECall p], Err (KeyError "transaction")).
Proof.
  intros q p Hq Hqj Hout Hp Hpj Hd. subst q p. unfold _swap_tokens.
  rewrite run_bind. run_call. rewrite Hq.
  rewrite run_bind, run_lift, Hqj. rewrite run_bind, run_lift.
  cbn [py_get]. rewrite Hout. simpl negb. cbv iota.
  rewrite run_bind. run_call. rewrite ?app_nil_r, Hp.
  rewrite run_bind, run_lift, Hpj. rewrite run_bind, run_lift.
  cbn [py_getitem]. unfold dict_getitem. rewrite Hd. reflexivity.
Qed.

Lemma swap_answer_without_transaction_witness :
  let o := world_swap (balance_is "1") (quote_is "7") (JObj ∅) in
  let q := RequestsGet quote_url (Some (quote_params SOL_MINT (JStr "MINT_A") 7)) None in
  let p := RequestsPost swap_url (swap_data wallet SOL_MINT (JStr "MINT_A") 7) in
  run o [] (_swap_tokens wallet SOL_MINT (JStr "MINT_A") 7) =
    ([ECall q; ECall p], Err (KeyError "transaction")).
Proof.
  apply (swap_answer_without_transaction
           (world_swap (balance_is "1") (quote_is "7") (JObj ∅)) []
           wallet (JStr "MINT_A") 7
           (ok_response (quote_is "7")) (ok_response (JObj ∅))
           {[ "output_amount" := JStr "7" ]} ∅).
  - vm_compute. reflexivity.
  - reflexivity.
  - vm_compute. reflexivity.
  - vm_compute. reflexivity.
  - reflexivity.
  - reflexivity.
Defined.

(** X15: the quote is accepted on the truth value of ["output_amount"]
    alone.  Any non-empty string passes, the numeral ["0"] included, and
    the swap build follows. *)
Theorem string_output_amount_is_accepted (o : oracle) hist self (output_token : json)
    (r : Z) (qresp : Response) (quote : gmap string json) (c : ascii) (s : string) :
  let q := RequestsGet quote_url (Some (quote_params SOL_MINT output_token r)) None in
  let p := RequestsPost swap_url (swap_data self SOL_MINT output_token r) in
  o hist q = Ok qresp ->
  json_body qresp = Ok (JObj quote) ->
  quote !! "output_amount" = Some (JStr (String c s)) ->
  exists rest,
    fst (run o hist (_swap_tokens self SOL_MINT output_token r))
      = ECall q :: ECall p :: rest.
Proof.
  intros q p Hq Hqj Hout. subst q p. unfold _swap_tokens.
  rewrite run_bind. run_call. rewrite Hq.
  rewrite run_bind, run_lift, Hqj. rewrite run_bind, run_lift.
  cbn [py_get]. unfold dict_get. rewrite Hout. simpl negb. cbv iota.
  rewrite run_bind. run_call.
  destruct (o _ (RequestsPost _ _)) as [sresp|e]; [|by eexists].
  match goal with
  | |- context [ run ?o' ?h ?prog ] => destruct (run o' h prog) as [t' [x|e]]
  end; by eexists.
Qed.

Lemma string_output_amount_is_accepted_witness :
  let o := world (balance_is "1") (quote_is "0") in
  let q := RequestsGet quote_url (Some (quote_params SOL_MINT (JStr "MINT_A") 7)) None in
  let p := RequestsPost swap_url (swap_data wallet SOL_MINT (JStr "MINT_A") 7) in
  exists rest,
    fst (run o [] (_swap_tokens wallet SOL_MINT (JStr "MINT_A") 7))
      = ECall q :: ECall p :: rest.
Proof.
  apply (string_output_amount_is_accepted
           (world (balance_is "1") (quote_is "0")) []
           wallet (JStr "MINT_A") 7 (ok_response (quote_is "0"))
           {[ "output_amount" := JStr "0" ]} "0"%char EmptyString).
  - vm_compute. reflexivity.
  - reflexivity.
  - vm_compute. reflexivity.
Defined.

(** X16: the swap is built for what was quoted: the body posted to the swap
    service is the parameters of the quote request with the wallet address
    added. *)
Theorem swap_build_repeats_quote (self : X402PaymentHandler) (input_token : string)
    (output_token : json) (amount : Z) :
  swap_data self input_token output_token amount =
    <[ "wallet_address" := JStr (wallet_address self) ]>
      (quote_params input_token output_token amount) /\
  quote_params input_token output_token amount !! "wallet_address" = None.
Proof. split; reflexivity. Qed.

(** *** The example run *)

(** X17: when the first request raises, or is answered with a status other
    than 402, the example run makes that one call only: it prints the
    error, or the decoded body of the answer (the error of [.json()] when
    the body is not JSON), and pays nothing. *)
Theorem example_run_without_402 (o : oracle) (handler : X402PaymentHandler) :
  let g := RequestsGet EXAMPLE_URL None None in
  (forall e, o [] g = Err e -> main o handler = ([ECall g], ReportError e)) /\
  (forall response, o [] g = Ok response -> status_code response <> 402 ->
     main o handler =
       ([ECall g],
        match json_body response with
        | Ok data => PlainResponse data
        | Err e => ReportError e
        end)).
Proof.
  intros g. subst g. unfold main, main_try. split.
  - intros e He. rewrite run_bind. run_call. by rewrite He.
  - intros response Ho Hs. rewrite run_bind. run_call. rewrite Ho.
    apply Z.eqb_neq in Hs. rewrite Hs.
    rewrite run_bind, run_lift.
    by destruct (json_body response).
Qed.

(** X18: on a 402 answer the example run is its first request followed by
    the handler's run in the world as it is after that request; it prints
    the decoded body of what the handler returns, and the error when the
    handler or the decoding raises. *)
Theorem example_run_on_402 (o : oracle) (handler : X402PaymentHandler)
    (response : Response) :
  let g := RequestsGet EXAMPLE_URL None None in
  o [] g = Ok response ->
  status_code response = 402 ->
  main o handler =
    (ECall g :: fst (run (after o [ECall g]) []
                       (handle_402_response handler response EXAMPLE_URL)),
     match snd (run (after o [ECall g]) []
                  (handle_402_response handler response EXAMPLE_URL)) with
     | Ok paid =>
         match json_body paid with
         | Ok data => GotData data
         | Err e => ReportError e
         end
     | Err e => ReportError e
     end).
Proof.
  intros g Ho Hs. subst g. unfold main, main_try.
  rewrite run_bind. run_call. rewrite Ho, Hs.
  change (Z.eqb 402 402) with true. cbv iota.
  rewrite run_bind. cbn [app].
  rewrite (run_after o [ECall (RequestsGet EXAMPLE_URL None None)]).
  destruct (run (after o _) [] (handle_402_response handler response EXAMPLE_URL))
    as [t [paid|e]]; cbn [fst snd]; [|done].
  rewrite run_bind, run_lift.
  destruct (json_body paid); simpl; by rewrite ?app_nil_r.
Qed.

Lemma example_run_on_402_witness :
  let o := world_main response_402 (balance_is "2000000") (quote_is "1") in
  let g := RequestsGet EXAMPLE_URL None None in
  main o wallet =
    (ECall g :: fst (run (after o [ECall g]) []
                       (handle_402_response wallet response_402 EXAMPLE_URL)),
     match snd (run (after o [ECall g]) []
                  (handle_402_response wallet response_402 EXAMPLE_URL)) with
     | Ok paid =>
         match json_body paid with
         | Ok data => GotData data
         | Err e => ReportError e
         end
     | Err e => ReportError e
     end).
Proof.
  apply (example_run_on_402
           (world_main response_402 (balance_is "2000000") (quote_is "1"))
           wallet response_402).
  - reflexivity.
  - reflexivity.
Defined.

(** X19: the example run prints "Got data" only after a complete paid run:
    its first request, then the handler's direct or exchange itinerary to
    the end. *)
Theorem got_data_means_paid (o : oracle) (handler : X402PaymentHandler)
    (t : list event) (data : json) :
  main o handler = (t, GotData data) ->
  kinds t = KInitial :: direct_itinerary \/
  kinds t = KInitial :: exchange_itinerary.
Proof.
  unfold main, main_try. rewrite run_bind. run_call.
  destruct (o [] _) as [response|e]; [|discriminate].
  destruct (Z.eqb (status_code response) 402) eqn:Hs.
  2:{ rewrite run_bind, run_lift.
      destruct (json_body response); simpl; discriminate. }
  apply Z.eqb_eq in Hs.
  rewrite run_bind. cbn [app].
  rewrite (run_after o [ECall (RequestsGet EXAMPLE_URL None None)]).
  destruct (handle_kinds (after o [ECall (RequestsGet EXAMPLE_URL None None)])
              handler response EXAMPLE_URL) as [_ Hdone].
  specialize (Hdone Hs).
  destruct (run (after o _) [] (handle_402_response handler response EXAMPLE_URL))
    as [th [paid|e]]; cbn [fst snd] in *; [|discriminate].
  rewrite run_bind, run_lift.
  destruct (json_body paid); simpl; [|discriminate].
  intros [= <- _]. rewrite !app_nil_r. simpl.
  destruct (Hdone paid eq_refl) as [-> | ->]; auto.
Qed.

Lemma got_data_means_paid_witness :
  kinds (fst (main (world_main response_402 (balance_is "500000") (quote_is "1000000"))
                   wallet))
    = KInitial :: direct_itinerary \/
  kinds (fst (main (world_main response_402 (balance_is "500000") (quote_is "1000000"))
                   wallet))
    = KInitial :: exchange_itinerary.
Proof.
  apply (got_data_means_paid
           (world_main response_402 (balance_is "500000") (quote_is "1000000"))
           wallet _ (JObj {[ "data" := JStr "paid" ]})).
  vm_compute. reflexivity.
Defined.

(** *** Construction *)

(** X20: a handler is constructed only from a wallet file that decodes to
    an object with a ["secret_key"] the SDK accepts; its address is then
    the one derived from the key pair it holds. *)
Theorem init_success_inversion (load_json : string -> result json)
    (from_base58_string : json -> result Keypair)
    (pubkey_str : Keypair -> result string)
    (wallet_path : string) (handler : X402PaymentHandler) :
  init load_json from_base58_string pubkey_str wallet_path = Ok handler ->
  exists (d : gmap string json) (secret : json),
    load_json wallet_path = Ok (JObj d) /\
    d !! "secret_key" = Some secret /\
    from_base58_string secret = Ok (keypair handler) /\
    pubkey_str (keypair handler) = Ok (wallet_address handler).
Proof.
  unfold init. intros H.
  destruct (load_json wallet_path) as [data|e]; [|discriminate H]. simpl in H.
  destruct data as [| | | | | |d]; try discriminate H. simpl in H.
  unfold dict_getitem in H.
  destruct (d !! "secret_key") as [secret|] eqn:Hk; [|discriminate H]. simpl in H.
  destruct (from_base58_string secret) as [kp|e] eqn:Hkp; [|discriminate H].
  simpl in H.
  destruct (pubkey_str kp) as [address|e] eqn:Haddr; [|discriminate H].
  injection H as <-. simpl. eauto 10.
Qed.

Lemma init_success_inversion_witness :
  exists (d : gmap string json) (secret : json),
    load_wallet_file "wallet.json" = Ok (JObj d) /\
    d !! "secret_key" = Some secret /\
    keypair_of_json secret
      = Ok (keypair {| keypair := KeypairOf "5Kb8"; wallet_address := "addr:5Kb8" |}) /\
    address_of (keypair {| keypair := KeypairOf "5Kb8"; wallet_address := "addr:5Kb8" |})
      = Ok (wallet_address
              {| keypair := KeypairOf "5Kb8"; wallet_address := "addr:5Kb8" |}).
Proof.
  apply (init_success_inversion load_wallet_file keypair_of_json address_of
           "wallet.json").
  vm_compute. reflexivity.
Defined.

(** X21: construction fails with the error of reading the file when the
    file cannot be read or decoded, with [KeyError('secret_key')] when the
    decoded object has no such field, and with [TypeError] when the file
    decodes to something that is not an object; the SDK is then not
    consulted. *)
Theorem init_errors (load_json : string -> result json)
    (from_base58_string : json -> result Keypair)
    (pubkey_str : Keypair -> result string) (wallet_path : string) :
  (forall e, load_json wallet_path = Err e ->
     init load_json from_base58_string pubkey_str wallet_path = Err e) /\
  (forall d, load_json wallet_path = Ok (JObj d) -> d !! "secret_key" = None ->
     init load_json from_base58_string pubkey_str wallet_path
       = Err (KeyError "secret_key")) /\
  (forall v, load_json wallet_path = Ok v -> is_object v = false ->
     init load_json from_base58_string pubkey_str wallet_path = Err TypeError).
Proof.
  unfold init. repeat split.
  - by intros e ->.
  - intros d -> Hd. simpl. unfold dict_getitem. by rewrite Hd.
  - intros v -> Hv. by destruct v.
Qed.

(** *** Conversions *)

(** X22: the amount sent to the quote service and to the swap service is
    one and the same string, the decimal numeral of the required amount,
    and [int] reads it back as the required amount (for an amount of no
    more digits than the interpreter converts). *)
Theorem quoted_amount_reads_back (self : X402PaymentHandler) (input_token : string)
    (output_token : json) (r : Z) :
  decimal_digits r <= MAX_STR_DIGITS ->
  exists s : string,
    quote_params input_token output_token r !! "amount" = Some (JStr s) /\
    swap_data self input_token output_token r !! "amount" = Some (JStr s) /\
    int (JStr s) = Ok r.
Proof.
  intros Hlim. exists (str r).
  split; [reflexivity|]. split; [reflexivity|].
  cbn [int]. by rewrite (int_of_string_str r Hlim).
Qed.

Lemma quoted_amount_reads_back_witness :
  exists s : string,
    quote_params SOL_MINT (JStr "TOKEN_MINT") 1000000 !! "amount" = Some (JStr s) /\
    swap_data wallet SOL_MINT (JStr "TOKEN_MINT") 1000000 !! "amount" = Some (JStr s) /\
    int (JStr s) = Ok 1000000.
Proof.
  apply (quoted_amount_reads_back wallet SOL_MINT (JStr "TOKEN_MINT") 1000000).
  vm_compute. discriminate.
Defined.

End ScriptSpec.
